(** * Canopy height modelling with GEDI and Sentinel-2: the script, embedded

    A shallow embedding of [gee-chm-gedi-sentinel2.js].  The script is a
    straight-line Earth Engine program: every step is a call into the
    platform, and the values it names ([qualityMask], [gedi], [ndvi],
    [stacked], [trainingSamples], [RFmodel], [rmseVal], ...) are kept
    under their names.  The platform objects are modelled as plain data:

    - a raster band is a function from pixels to [option Q], [None] being
      a masked pixel; an image is an ordered list of named bands together
      with its [system:time_start];
    - a feature has a [system:index], an optional point geometry and a
      dictionary of numeric properties ([gmap string Q]); a property that
      is null is a key that is absent;
    - a platform call that can fail returns a [result];
    - the platform's double-precision numbers are idealised as rationals;
      rounding is outside the model, and so are scale and projection: one
      pixel grid stands for every scale.

    Platform operations have the behaviour of the Earth Engine reference:
    [select] matches band names against regular expressions, [updateMask]
    and [clip] only mask, [filterDate] includes its start and excludes its
    end, [addBands] appends, [ee.Filter.neq] and [gte] negate [eq] and
    [lt], [randomColumn] draws from the seed and [system:index],
    [sampleRegions] drops the features that fall on a masked pixel,
    [aggregate_array] skips nulls and [zip] stops at the shorter list.
    What the platform computes out of the script's sight is a parameter:
    the division of two pixel values, the generator behind
    [randomColumn], whether the forest can be fitted, the answers of the
    fitted forest and the square root.

    The median height raster is modelled; the sample table [S2samples],
    which the script's section 5 draws from it by sampling at two scales,
    is taken as given; map layers and the legend are left out. *)

From Stdlib Require Import ZArith QArith Qabs List Bool Ascii String Lia Lqa Permutation.
From stdpp Require Import base option gmap strings pretty.
Import ListNotations.

Local Open Scope string_scope.
Local Open Scope list_scope.

(** ** Platform errors *)

Inductive result (A : Type) : Type :=
| Ok (a : A)
| Err (msg : string).
Arguments Ok {A} a.
Arguments Err {A} msg.

Definition rbind {A B} (r : result A) (k : A -> result B) : result B :=
  match r with
  | Ok a => k a
  | Err m => Err m
  end.

Notation "x <~ c1 ;; c2" := (rbind c1 (fun x => c2))
  (at level 100, c1 at next level, right associativity).

Fixpoint rmapM {A B} (f : A -> result B) (l : list A) : result (list B) :=
  match l with
  | [] => Ok []
  | a :: l' => b <~ f a ;; bs <~ rmapM f l' ;; Ok (b :: bs)
  end.

(** ** Band selectors

    [select] takes regular expressions that must match a whole band name.
    The script only uses literal characters, [.] and [*]. *)

Module Selector.

Inductive atom : Type :=
| Lit (c : ascii)
| Any.

Definition item : Type := (atom * bool)%type.

Definition atom_ok (a : atom) (c : ascii) : bool :=
  match a with
  | Lit d => Ascii.eqb d c
  | Any => true
  end.

Definition atom_of (c : ascii) : atom :=
  if Ascii.eqb c "."%char then Any else Lit c.

(** A [*] stars the atom before it. *)
Fixpoint compile (re : list ascii) : list item :=
  match re with
  | [] => []
  | c :: rest =>
      match rest with
      | s :: rest' =>
          if Ascii.eqb s "*"%char then (atom_of c, true) :: compile rest'
          else (atom_of c, false) :: compile rest
      | [] => [(atom_of c, false)]
      end
  end.

Fixpoint match_items (items : list item) (s : list ascii) {struct items} : bool :=
  match items with
  | [] => match s with [] => true | _ => false end
  | (a, false) :: r =>
      match s with
      | c :: s' => atom_ok a c && match_items r s'
      | [] => false
      end
  | (a, true) :: r =>
      (fix star (s : list ascii) : bool :=
         match_items r s ||
         match s with
         | c :: s' => atom_ok a c && star s'
         | [] => false
         end) s
  end.

Definition matches (re name : string) : bool :=
  match_items (compile (list_ascii_of_string re)) (list_ascii_of_string name).

End Selector.

(** ** Rasters and images *)

Definition pixel : Type := (Z * Z)%type.

Abbreviation raster := (pixel -> option Q).

Record Image : Type := mkImage {
  time_start : Z;                       (* system:time_start, ms since the epoch *)
  bands : list (string * raster)
}.

Definition bandNames (im : Image) : list string := map fst (bands im).

Definition band (im : Image) (name : string) : option raster :=
  option_map snd (find (fun b => String.eqb (fst b) name) (bands im)).

Definition Geometry : Type := pixel -> bool.

Module EEImage.

(** [im.select(selectors)]: for each selector in turn, the bands it matches,
    in image order; a selector that matches no band is an error. *)
Definition select_one (im : Image) (re : string) : result (list (string * raster)) :=
  match List.filter (fun b => Selector.matches re (fst b)) (bands im) with
  | [] => Err ("Image.select: Pattern '" ++ re ++ "' did not match any bands.")
  | bs => Ok bs
  end.

Definition select (im : Image) (selectors : list string) : result Image :=
  bss <~ rmapM (select_one im) selectors ;;
  Ok (mkImage (time_start im) (concat bss)).

Definition map_bands (f : raster -> raster) (im : Image) : Image :=
  mkImage (time_start im) (map (fun b => (fst b, f (snd b))) (bands im)).

(** [im.eq(c)]: 1 where the value equals [c], 0 elsewhere, masked where the
    input is masked. *)
Definition eq_const (c : Q) (r : raster) : raster :=
  fun p => option_map (fun v => if Qeq_bool v c then 1%Q else 0%Q) (r p).

Definition eq (im : Image) (c : Q) : Image := map_bands (eq_const c) im.

(** [updateMask]: a pixel stays valid where it was valid and the mask is
    valid and non-zero; values are not touched. *)
Definition mask_by (m r : raster) : raster :=
  fun p =>
    match m p with
    | Some w => if Qeq_bool w 0 then None else r p
    | None => None
    end.

Fixpoint mask_pairwise (bs ms : list (string * raster)) : list (string * raster) :=
  match bs, ms with
  | b :: bs', m :: ms' => (fst b, mask_by (snd m) (snd b)) :: mask_pairwise bs' ms'
  | _, _ => []
  end.

Definition updateMask (im mask : Image) : result Image :=
  match bands mask with
  | [m] => Ok (map_bands (mask_by (snd m)) im)
  | ms =>
      if Nat.eqb (List.length ms) (List.length (bands im))
      then Ok (mkImage (time_start im) (mask_pairwise (bands im) ms))
      else Err "Image.updateMask: band count mismatch."
  end.

(** [im.rename(name)] with one name: the image must have one band. *)
Definition rename (im : Image) (name : string) : result Image :=
  match bands im with
  | [b] => Ok (mkImage (time_start im) [(name, snd b)])
  | _ => Err "Image.rename: the number of names must match the number of bands."
  end.

(** [im.addBands(src)] without [overwrite]: the bands of [src] are appended;
    one whose name is taken gets the first free suffix [_1], [_2], ... *)
Fixpoint first_free (taken : list string) (name : string) (k fuel : nat) : string :=
  let candidate := name +:+ "_" +:+ pretty k in
  match fuel with
  | O => candidate
  | S fuel' =>
      if existsb (String.eqb candidate) taken
      then first_free taken name (S k) fuel'
      else candidate
  end.

Definition fresh_name (taken : list string) (name : string) : string :=
  if existsb (String.eqb name) taken
  then first_free taken name 1 (List.length taken)
  else name.

Fixpoint add_each (dst src : list (string * raster)) : list (string * raster) :=
  match src with
  | [] => dst
  | b :: src' => add_each (dst ++ [(fresh_name (map fst dst) (fst b), snd b)]) src'
  end.

Definition addBands (im src : Image) : Image :=
  mkImage (time_start im) (add_each (bands im) (bands src)).

(** [im.classify(classifier)]: one band, ['classification'], valid where
    every input band is. *)
Definition required_band (im : Image) (name : string) : result raster :=
  match band im name with
  | Some r => Ok r
  | None => Err ("Image.classify: band '" +:+ name +:+ "' is missing.")
  end.

Definition classify_pixel (answer : list Q -> Q) (inputs : list raster) : raster :=
  fun p => row ← mapM (fun r : raster => r p) inputs; Some (answer row).

(** [im.clip(geometry)]: pixels outside the geometry are masked. *)
Definition clip_raster (g : Geometry) (r : raster) : raster :=
  fun p => if g p then r p else None.

Definition clip (im : Image) (g : Geometry) : Image := map_bands (clip_raster g) im.

End EEImage.

(** ** Dates

    [filterDate] takes its bounds as ['YYYY-MM-DD'] strings and compares
    them with [system:time_start], in milliseconds since the epoch. *)

Module EEDate.

Definition digit (c : ascii) : option Z :=
  let n := Z.of_nat (nat_of_ascii c) in
  if ((48 <=? n) && (n <=? 57))%Z then Some (n - 48)%Z else None.

Fixpoint number (acc : Z) (cs : list ascii) : option Z :=
  match cs with
  | [] => Some acc
  | c :: cs' =>
      match digit c with
      | Some d => number (10 * acc + d)%Z cs'
      | None => None
      end
  end.

(** Days from 1970-01-01 to the given day of the proleptic Gregorian calendar. *)
Definition days_from_civil (y m d : Z) : Z :=
  let y' := (if m <=? 2 then y - 1 else y)%Z in
  let era := (y' / 400)%Z in
  let yoe := (y' - era * 400)%Z in
  let mp := (if 2 <? m then m - 3 else m + 9)%Z in
  let doy := ((153 * mp + 2) / 5 + d - 1)%Z in
  let doe := (yoe * 365 + yoe / 4 - yoe / 100 + doy)%Z in
  (era * 146097 + doe - 719468)%Z.

Definition millis_per_day : Z := 86400000.

Definition parse_date (s : string) : result Z :=
  match list_ascii_of_string s with
  | [y1; y2; y3; y4; s1; m1; m2; s2; d1; d2] =>
      if Ascii.eqb s1 "-"%char && Ascii.eqb s2 "-"%char then
        match number 0 [y1; y2; y3; y4], number 0 [m1; m2], number 0 [d1; d2] with
        | Some y, Some m, Some d => Ok (days_from_civil y m d * millis_per_day)%Z
        | _, _, _ => Err ("Invalid date: " ++ s)
        end
      else Err ("Invalid date: " ++ s)
  | _ => Err ("Invalid date: " ++ s)
  end.

End EEDate.

(** ** Image collections *)

Definition ImageCollection : Type := list Image.

Module EEImageCollection.

(** [filterDate(start, end)]: start inclusive, end exclusive. *)
Definition in_window (lo hi : Z) (im : Image) : bool :=
  ((lo <=? time_start im) && (time_start im <? hi))%Z.

Definition filterDate (c : ImageCollection) (start end_ : string) : result ImageCollection :=
  lo <~ EEDate.parse_date start ;;
  hi <~ EEDate.parse_date end_ ;;
  Ok (List.filter (in_window lo hi) c).

Definition select (c : ImageCollection) (selectors : list string) : result ImageCollection :=
  rmapM (fun im => EEImage.select im selectors) c.

End EEImageCollection.

(** ** 3. GEDI data processing *)

Definition qualityMask (im : Image) : result Image :=
  q <~ EEImage.select im ["quality_flag"] ;;
  m1 <~ EEImage.updateMask im (EEImage.eq q 1) ;;
  d <~ EEImage.select im ["degrade_flag"] ;;
  EEImage.updateMask m1 (EEImage.eq d 0).

(** The quality-filtered collection: [ROI] is the region-of-interest asset,
    [collection] the contents of LARSE/GEDI/GEDI02_A_002_MONTHLY. *)
Definition gedi (ROI : Geometry) (collection : ImageCollection) : result ImageCollection :=
  c1 <~ rmapM qualityMask collection ;;
  c2 <~ EEImageCollection.filterDate c1 "2019-06-01" "2019-10-01" ;;
  let c3 := map (fun im => EEImage.clip im ROI) c2 in
  EEImageCollection.select c3 ["rh.*"; "lat_highestreturn"; "lon_highestreturn"].

Definition gedi95 (ROI : Geometry) (collection : ImageCollection) : result ImageCollection :=
  g <~ gedi ROI collection ;;
  EEImageCollection.select g ["rh95"].


(** ** Image expressions

    [image.expression(text, map)] parses [text] and evaluates it pixel by
    pixel, the variables standing for the images of [map].  The script's
    expressions are built from variables, parentheses and the four
    arithmetic operators. *)

Module Expression.

Inductive token : Type :=
| TId (x : string)
| TOp (c : ascii)
| TOpen
| TClose.

Inductive binop : Type := Add | Sub | Mul | Div.

Inductive expr : Type :=
| Var (x : string)
| Bin (op : binop) (l r : expr).

Definition ident_char (c : ascii) : bool :=
  let n := nat_of_ascii c in
  ((65 <=? n) && (n <=? 90) || (97 <=? n) && (n <=? 122) ||
   (48 <=? n) && (n <=? 57) || (n =? 95))%nat.

Definition flush (acc : string) : list token :=
  if String.eqb acc "" then [] else [TId acc].

Definition symbol (c : ascii) : result (list token) :=
  if Ascii.eqb c " "%char then Ok []
  else if Ascii.eqb c "("%char then Ok [TOpen]
  else if Ascii.eqb c ")"%char then Ok [TClose]
  else if Ascii.eqb c "+"%char || Ascii.eqb c "-"%char ||
          Ascii.eqb c "*"%char || Ascii.eqb c "/"%char then Ok [TOp c]
  else Err "Image.expression: unexpected character.".

Fixpoint lex (cs : list ascii) (acc : string) : result (list token) :=
  match cs with
  | [] => Ok (flush acc)
  | c :: cs' =>
      if ident_char c then lex cs' (acc +:+ String c "")
      else
        sym <~ symbol c ;;
        ts <~ lex cs' "" ;;
        Ok (flush acc ++ sym ++ ts)
  end.

Definition additive (c : ascii) : option binop :=
  if Ascii.eqb c "+"%char then Some Add
  else if Ascii.eqb c "-"%char then Some Sub else None.

Definition multiplicative (c : ascii) : option binop :=
  if Ascii.eqb c "*"%char then Some Mul
  else if Ascii.eqb c "/"%char then Some Div else None.

(** Recursive descent; [fuel] bounds the nesting and is taken from the
    number of tokens. *)
Fixpoint parse_sum (fuel : nat) (ts : list token) : option (expr * list token) :=
  match fuel with
  | O => None
  | S fuel' =>
      match parse_product fuel' ts with
      | Some (l, rest) => parse_sum_rest fuel' l rest
      | None => None
      end
  end
with parse_sum_rest (fuel : nat) (l : expr) (ts : list token) : option (expr * list token) :=
  match fuel with
  | O => None
  | S fuel' =>
      match ts with
      | TOp c :: rest =>
          match additive c with
          | Some op =>
              match parse_product fuel' rest with
              | Some (r, rest') => parse_sum_rest fuel' (Bin op l r) rest'
              | None => None
              end
          | None => Some (l, ts)
          end
      | _ => Some (l, ts)
      end
  end
with parse_product (fuel : nat) (ts : list token) : option (expr * list token) :=
  match fuel with
  | O => None
  | S fuel' =>
      match parse_atom fuel' ts with
      | Some (l, rest) => parse_product_rest fuel' l rest
      | None => None
      end
  end
with parse_product_rest (fuel : nat) (l : expr) (ts : list token) : option (expr * list token) :=
  match fuel with
  | O => None
  | S fuel' =>
      match ts with
      | TOp c :: rest =>
          match multiplicative c with
          | Some op =>
              match parse_atom fuel' rest with
              | Some (r, rest') => parse_product_rest fuel' (Bin op l r) rest'
              | None => None
              end
          | None => Some (l, ts)
          end
      | _ => Some (l, ts)
      end
  end
with parse_atom (fuel : nat) (ts : list token) : option (expr * list token) :=
  match fuel with
  | O => None
  | S fuel' =>
      match ts with
      | TId x :: rest => Some (Var x, rest)
      | TOpen :: rest =>
          match parse_sum fuel' rest with
          | Some (e, TClose :: rest') => Some (e, rest')
          | _ => None
          end
      | _ => None
      end
  end.

Definition parse (text : string) : result expr :=
  ts <~ lex (list_ascii_of_string text) "" ;;
  match parse_sum (4 * List.length ts + 4) ts with
  | Some (e, []) => Ok e
  | _ => Err "Image.expression: syntax error."
  end.

Section Eval.

(** The platform's division of two pixel values: [None] masks the pixel. *)
Variable divide : Q -> Q -> option Q.

Definition apply (op : binop) (x y : Q) : option Q :=
  match op with
  | Add => Some (x + y)%Q
  | Sub => Some (x - y)%Q
  | Mul => Some (x * y)%Q
  | Div => divide x y
  end.

(** A pixel of the result is masked where either operand is. *)
Definition pointwise (op : binop) (a b : raster) : raster :=
  fun p =>
    match a p, b p with
    | Some x, Some y => apply op x y
    | _, _ => None
    end.

(** A variable stands for a single-band image; the result of a binary
    operation is named after its left operand. *)
Fixpoint eval (env : gmap string Image) (e : expr) : result (string * raster) :=
  match e with
  | Var x =>
      match env !! x with
      | Some im =>
          match bands im with
          | [b] => Ok b
          | _ => Err ("Image.expression: variable '" ++ x ++ "' must have one band.")
          end
      | None => Err ("Image.expression: unknown variable '" ++ x ++ "'.")
      end
  | Bin op l r =>
      a <~ eval env l ;;
      b <~ eval env r ;;
      Ok (fst a, pointwise op (snd a) (snd b))
  end.

Definition expression (im : Image) (text : string) (env : gmap string Image) : result Image :=
  e <~ parse text ;;
  b <~ eval env e ;;
  Ok (mkImage (time_start im) [b]).

End Eval.

End Expression.

(** ** 4. Vegetation indices calculation *)

Section Indices.

Variable divide : Q -> Q -> option Q.

Definition ndvi (image : Image) : result Image :=
  nir <~ EEImage.select image ["B8_median"] ;;
  red <~ EEImage.select image ["B4_median"] ;;
  e <~ Expression.expression divide image "((NIR - Red) / (NIR + Red))"
         (<["NIR" := nir]> (<["Red" := red]> ∅)) ;;
  EEImage.rename e "ndvi".

Definition nbr (image : Image) : result Image :=
  nir <~ EEImage.select image ["B8_median"] ;;
  swir1 <~ EEImage.select image ["B11_median"] ;;
  e <~ Expression.expression divide image "((NIR - SWIR1) / (NIR + SWIR1))"
         (<["NIR" := nir]> (<["SWIR1" := swir1]> ∅)) ;;
  EEImage.rename e "nbr".

Definition ndmi (image : Image) : result Image :=
  nir <~ EEImage.select image ["B8_median"] ;;
  swir2 <~ EEImage.select image ["B12_median"] ;;
  e <~ Expression.expression divide image "((NIR - SWIR2) / (NIR + SWIR2))"
         (<["NIR" := nir]> (<["SWIR2" := swir2]> ∅)) ;;
  EEImage.rename e "ndmi".

Definition stacked (image : Image) : result Image :=
  i1 <~ ndvi image ;;
  i2 <~ nbr image ;;
  i3 <~ ndmi image ;;
  Ok (EEImage.addBands (EEImage.addBands (EEImage.addBands image i1) i2) i3).

End Indices.

(** ** Features and feature collections *)

Record Feature : Type := mkFeature {
  sys_index : string;                   (* system:index *)
  geometry : option pixel;
  properties : gmap string Q
}.

Definition FeatureCollection : Type := list Feature.

Definition get (f : Feature) (name : string) : option Q := properties f !! name.

Definition set (f : Feature) (name : string) (v : Q) : Feature :=
  mkFeature (sys_index f) (geometry f) (<[name := v]> (properties f)).

(** [ee.Filter]: [neq] and [gte] are, as in the client library, the
    negations of [eq] and [lt].  A value of [None] is [null]. *)
Module EEFilter.

Inductive t : Type :=
| eq (name : string) (value : option Q)
| lt (name : string) (value : Q)
| not (f : t).

Definition neq (name : string) (value : option Q) : t := not (eq name value).
Definition gte (name : string) (value : Q) : t := not (lt name value).

Fixpoint test (flt : t) (f : Feature) : bool :=
  match flt with
  | eq name value =>
      match get f name, value with
      | Some a, Some b => Qeq_bool a b
      | None, None => true
      | _, _ => false
      end
  | lt name value =>
      match get f name with
      | Some a => negb (Qle_bool value a)
      | None => false
      end
  | not g => negb (test g f)
  end.

End EEFilter.

Module EEFeatureCollection.

Definition filter (c : FeatureCollection) (flt : EEFilter.t) : FeatureCollection :=
  List.filter (EEFilter.test flt) c.

Definition size (c : FeatureCollection) : nat := List.length c.

(** [aggregate_array(property)]: the values of the property, in collection
    order; features where it is null contribute nothing. *)
Definition aggregate_array (c : FeatureCollection) (property : string) : list Q :=
  omap (fun f => get f property) c.

Section Random.

(** The platform's generator for the uniform distribution: the value is a
    function of the seed and of the row key, which is [system:index]. *)
Variable uniform : Z -> string -> Q.

Definition randomColumn (c : FeatureCollection) (columnName : string) (seed : Z) : FeatureCollection :=
  map (fun f => set f columnName (uniform seed (sys_index f))) c.

End Random.

(** The seed [randomColumn] uses when the caller passes none. *)
Definition default_seed : Z := 0.

End EEFeatureCollection.

(** [image.sampleRegions]: one output feature per input feature whose point
    falls on a pixel where every band is valid; it carries the band values
    and the listed properties of the input feature, and no geometry.  The
    pixel grid stands for every scale. *)
Definition sample_at (im : Image) (p : pixel) : option (list (string * Q)) :=
  mapM (fun b => v ← snd b p; Some (fst b, v)) (bands im).

Definition copy_properties (f : Feature) (names : list string) : gmap string Q :=
  list_to_map (omap (fun n => v ← get f n; Some (n, v)) names).

Definition sample_region (im : Image) (names : list string) (f : Feature) : option Feature :=
  p ← geometry f;
  vs ← sample_at im p;
  Some (mkFeature (sys_index f +:+ "_0") None
          (list_to_map vs ∪ copy_properties f names)).

Definition sampleRegions (im : Image) (collection : FeatureCollection)
    (properties_ : list string) : FeatureCollection :=
  omap (sample_region im properties_) collection.

(** ** 6. Training and testing samples *)

Section Splitter.

Variable uniform : Z -> string -> Q.

Definition validFeatures (S2samples : FeatureCollection) : FeatureCollection :=
  EEFeatureCollection.filter S2samples (EEFilter.neq "rh95" None).

Definition withRandom (S2samples : FeatureCollection) : FeatureCollection :=
  EEFeatureCollection.randomColumn uniform (validFeatures S2samples) "random"
    EEFeatureCollection.default_seed.

Definition trainingSamples (S2samples : FeatureCollection) : FeatureCollection :=
  EEFeatureCollection.filter (withRandom S2samples) (EEFilter.lt "random" 0.7).

Definition testingSamples (S2samples : FeatureCollection) : FeatureCollection :=
  EEFeatureCollection.filter (withRandom S2samples) (EEFilter.gte "random" 0.7).

End Splitter.

(** ** 7. The random forest *)

Inductive OutputMode : Type := CLASSIFICATION | REGRESSION | PROBABILITY.

Record TrainingSet : Type := mkTrainingSet {
  features : FeatureCollection;
  inputProperties : list string;
  classProperty : string
}.

Record Classifier : Type := mkClassifier {
  numberOfTrees : Z;
  variablesPerSplit : option Z;
  minLeafPopulation : Z;
  bagFraction : Q;
  maxNodes : option Z;
  seed : Z;
  outputMode : OutputMode;
  trainedOn : option TrainingSet
}.

Module EEClassifier.

(** The argument object of [smileRandomForest]; a key left out is [None]
    and takes the platform's default. *)
Record Args : Type := mkArgs {
  arg_numberOfTrees : Z;
  arg_variablesPerSplit : option Z;
  arg_minLeafPopulation : option Z;
  arg_bagFraction : option Q;
  arg_maxNodes : option Z;
  arg_seed : option Z
}.

Definition smileRandomForest (a : Args) : Classifier :=
  mkClassifier (arg_numberOfTrees a) (arg_variablesPerSplit a)
    (default 1%Z (arg_minLeafPopulation a))
    (default 0.5%Q (arg_bagFraction a))
    (arg_maxNodes a)
    (default 0%Z (arg_seed a))
    CLASSIFICATION None.

Definition setOutputMode (c : Classifier) (mode : OutputMode) : Classifier :=
  mkClassifier (numberOfTrees c) (variablesPerSplit c) (minLeafPopulation c)
    (bagFraction c) (maxNodes c) (seed c) mode (trainedOn c).

Definition train (c : Classifier) (features_ : FeatureCollection)
    (inputProperties_ : list string) (classProperty_ : string) : Classifier :=
  mkClassifier (numberOfTrees c) (variablesPerSplit c) (minLeafPopulation c)
    (bagFraction c) (maxNodes c) (seed c) (outputMode c)
    (Some (mkTrainingSet features_ inputProperties_ classProperty_)).

Section Predict.

(** What the fitted forest answers on a row of input values. *)
Variable predict : Classifier -> list Q -> Q.

(** [collection.classify(classifier)]: every feature gets the prediction
    under ['classification']; an untrained classifier or a feature without
    one of the inputs is an error. *)
Definition classify_feature (c : Classifier) (inputs : list string) (f : Feature) : result Feature :=
  match mapM (get f) inputs with
  | Some row => Ok (set f "classification" (predict c row))
  | None => Err ("Property of feature '" +:+ sys_index f +:+ "' is missing.")
  end.

Definition classify (collection : FeatureCollection) (c : Classifier) : result FeatureCollection :=
  match trainedOn c with
  | Some t => rmapM (classify_feature c (inputProperties t)) collection
  | None => Err "Classifier must be trained."
  end.

End Predict.

Section Fit.

(** The platform's fit of the forest a classifier describes; a fit the
    platform cannot make is its error.  [train] only records what is to
    be fitted: the platform fits when a value that needs the forest is
    computed. *)
Variable fit : Classifier -> result unit.

(** [classifier.explain()]: the description of the fitted forest.  Its
    content is outside the model; it stands as the classifier it
    describes. *)
Definition explain (c : Classifier) : result Classifier :=
  match trainedOn c with
  | Some _ => fitted <~ fit c ;; Ok c
  | None => Err "Classifier must be trained."
  end.

End Fit.

End EEClassifier.

Definition inputBands : list string :=
  ["B2_median"; "B3_median"; "B4_median"; "B5_median"; "B7_median";
   "B8_median"; "B11_median"; "B12_median"; "ndvi"; "nbr"; "ndmi"].

Section Regressor.

Variable divide : Q -> Q -> option Q.
Variable uniform : Z -> string -> Q.

Definition training (image : Image) (S2samples : FeatureCollection) : result FeatureCollection :=
  st <~ stacked divide image ;;
  Ok (sampleRegions st (trainingSamples uniform S2samples) ["rh95"]).

Definition RFmodel (image : Image) (S2samples : FeatureCollection) : result Classifier :=
  let forest :=
    EEClassifier.setOutputMode
      (EEClassifier.smileRandomForest
         (EEClassifier.mkArgs 74 None (Some 3%Z) (Some 1%Q) None (Some 123%Z)))
      REGRESSION in
  t <~ training image S2samples ;;
  Ok (EEClassifier.train forest t inputBands "rh95").

End Regressor.

(** ** Prediction and evaluation on the testing subset *)

Module EEList.

(** [a.zip(b)]: pairs by position, as long as the shorter list. *)
Definition zip (a b : list Q) : list (Q * Q) := combine a b.

Definition sum (l : list Q) : Q := fold_right Qplus 0%Q l.

(** [reduce('mean')]: [None] is the null the reducer gives on no input. *)
Definition reduce_mean (l : list Q) : option Q :=
  match l with
  | [] => None
  | _ => Some (sum l / inject_Z (Z.of_nat (List.length l)))%Q
  end.

End EEList.

Section Evaluator.

Variable divide : Q -> Q -> option Q.
Variable uniform : Z -> string -> Q.
Variable predict : Classifier -> list Q -> Q.
Variable fit : Classifier -> result unit.
Variable sqrt : Q -> Q.

Definition prediction (ROI : Geometry) (image : Image) (S2samples : FeatureCollection) : result Image :=
  st <~ stacked divide image ;;
  m <~ RFmodel divide uniform image S2samples ;;
  t <~ match trainedOn m with
       | Some t => Ok t
       | None => Err "Classifier must be trained."
       end ;;
  rs <~ rmapM (EEImage.required_band st) (inputProperties t) ;;
  Ok (EEImage.clip
        (mkImage (time_start st) [("classification", EEImage.classify_pixel (predict m) rs)])
        ROI).

Definition testing (image : Image) (S2samples : FeatureCollection) : result FeatureCollection :=
  st <~ stacked divide image ;;
  Ok (sampleRegions st (testingSamples uniform S2samples) ["rh95"]).

Definition testPred (image : Image) (S2samples : FeatureCollection) : result FeatureCollection :=
  t <~ testing image S2samples ;;
  m <~ RFmodel divide uniform image S2samples ;;
  EEClassifier.classify predict t m.

Definition paired (testPred_ : FeatureCollection) : list (Q * Q) :=
  EEList.zip (EEFeatureCollection.aggregate_array testPred_ "rh95")
             (EEFeatureCollection.aggregate_array testPred_ "classification").

Definition rmse (testPred_ : FeatureCollection) : list Q :=
  map (fun pair =>
         let obs := fst pair in
         let pred := snd pair in
         Qpower (pred - obs) 2)
      (paired testPred_).

(** [ee.Number(x)] is a cast: a null stays a null until a method is
    applied to it, which is an error. *)
Definition method_input (x : option Q) : result Q :=
  match x with
  | Some v => Ok v
  | None => Err "Parameter 'input' is required and may not be null."
  end.

Definition rmseVal (testPred_ : FeatureCollection) : result Q :=
  m <~ method_input (EEList.reduce_mean (rmse testPred_)) ;;
  Ok (sqrt m).

Definition mae (testPred_ : FeatureCollection) : list Q :=
  map (fun pair =>
         let obs := fst pair in
         let pred := snd pair in
         Qabs (pred - obs))
      (paired testPred_).

Definition maeVal (testPred_ : FeatureCollection) : option Q :=
  EEList.reduce_mean (mae testPred_).

Definition evalSamples (ROI : Geometry) (image : Image) (S2samples : FeatureCollection)
    : result FeatureCollection :=
  pr <~ prediction ROI image S2samples ;;
  Ok (sampleRegions pr (testingSamples uniform S2samples) ["rh95"]).

(** [rfInfo], the first value of the script that needs the fitted
    forest. *)
Definition rfInfo (image : Image) (S2samples : FeatureCollection) : result Classifier :=
  m <~ RFmodel divide uniform image S2samples ;;
  EEClassifier.explain fit m.

(** ** The script from section 6 on, as the requests it makes

    The script has no branch and no [throw]: it issues the same requests in
    the same order on every input.  A value the platform fails to compute
    shows as an [Err] in the request that carries it, a null as [None].
    [testPred], [prediction] and [evalSamples] are the values the forest
    gives once it is fitted; a request that carries one of them is the
    error of the fit when the platform cannot fit the forest.  Map layers
    and the legend are left out. *)

Inductive Printed : Type :=
| PCount (n : nat)
| PNumber (x : result (option Q))
| PExplain (m : result Classifier)
| PImportance (m : result Classifier).

Inductive Event : Type :=
| Print (label : string) (v : Printed)
| ExportTableToDrive (collection : result FeatureCollection)
    (description folder fileNamePrefix fileFormat : string)
| ExportImageToDrive (image : result Image)
    (description folder fileNamePrefix : string) (scale maxPixels : Z) (crs : string)
    (region : Geometry).

Definition script (ROI : Geometry) (image : Image) (S2samples : FeatureCollection) : list Event :=
  let trainingSamples_ := trainingSamples uniform S2samples in
  let testingSamples_ := testingSamples uniform S2samples in
  let rfInfo_ := rfInfo image S2samples in
  let testPred_ := fitted <~ rfInfo_ ;; testPred image S2samples in
  let prediction_ := fitted <~ rfInfo_ ;; prediction ROI image S2samples in
  let evalSamples_ := fitted <~ rfInfo_ ;; evalSamples ROI image S2samples in
  [ Print "Training samples count:" (PCount (EEFeatureCollection.size trainingSamples_));
    Print "Testing samples count:" (PCount (EEFeatureCollection.size testingSamples_));
    ExportTableToDrive (Ok trainingSamples_) "GEDI_training_samples_NY_2019" "GEE_outputs"
      "gedi_training_samples_NY_2019" "CSV";
    ExportTableToDrive (Ok testingSamples_) "GEDI_testing_samples_NY_2019" "GEE_outputs"
      "gedi_testing_samples_NY_2019" "CSV";
    Print "Random Forest Info:" (PExplain rfInfo_);
    Print "Feature Importance:" (PImportance rfInfo_);
    Print "Testing RMSE (m):" (PNumber (t <~ testPred_ ;; v <~ rmseVal t ;; Ok (Some v)));
    Print "Testing MAE (m):" (PNumber (t <~ testPred_ ;; Ok (maeVal t)));
    ExportImageToDrive prediction_ "CHM_RF_NY_2019" "GEE_outputs"
      "CHM_RF_NY_2019" 10 (10 ^ 13) "EPSG:5070" ROI;
    ExportTableToDrive evalSamples_ "S2CHM_RF_NY_2019_eval" "GEE_outputs"
      "S2CHM_RF_NY_2019_eval" "CSV" ].

End Evaluator.

(** ** The median height raster

    [collection.median()]: band by band (bands are matched by name) and
    pixel by pixel, the median of the values that are valid there; a pixel
    where no image is valid is masked.  The images of the collection the
    script reduces all have the same single band, and the names are taken
    from the first.  The reduced image carries no date: its [time_start]
    is 0 and is read nowhere. *)

Section Median.

(** The platform's median of a list of values that is not empty. *)
Variable median_of : list Q -> Q.

Definition median_raster (rs : list raster) : raster :=
  fun p =>
    match omap (fun r : raster => r p) rs with
    | [] => None
    | vs => Some (median_of vs)
    end.

Definition median (c : ImageCollection) : Image :=
  mkImage 0
    match c with
    | [] => []
    | first :: _ =>
        map (fun n => (n, median_raster (omap (fun im => band im n) c))) (bandNames first)
    end.

Definition gediMedian (ROI : Geometry) (collection : ImageCollection) : result Image :=
  g <~ gedi95 ROI collection ;;
  Ok (median g).

End Median.

(** * The vocabulary of the statements *)

(** A selector without [.] or [*]: it compiles to its own characters. *)
Definition literal (re : string) : Prop :=
  Selector.compile (list_ascii_of_string re) =
  map (fun c => (Selector.Lit c, false)) (list_ascii_of_string re).

(** What [updateMask] does to each band: same name, same position, the
    raster masked by one of the mask's bands. *)
Definition masked_from (mask : Image) (b b0 : string * raster) : Prop :=
  fst b = fst b0 /\
  exists m, In m (bands mask) /\ snd b = EEImage.mask_by (snd m) (snd b0).

(** The flag band [flag] of [im] is valid at [p] and equals [c] there. *)
Definition flag_is (im : Image) (flag : string) (c : Q) (p : pixel) : Prop :=
  exists r w, In (flag, r) (bands im) /\ r p = Some w /\ (w == c)%Q.

(** A GEDI image as the filter expects it: distinct band names, the two
    flag bands, the two coordinate bands and at least one height band. *)
Definition gedi_image (im : Image) : Prop :=
  List.NoDup (bandNames im) /\
  (exists q, band im "quality_flag" = Some q) /\
  (exists d, band im "degrade_flag" = Some d) /\
  In "lat_highestreturn" (bandNames im) /\
  In "lon_highestreturn" (bandNames im) /\
  exists rest, In ("rh" +:+ rest) (bandNames im).

(** [m] has the timestamp and the band names of [i]. *)
Definition same_shape (i m : Image) : Prop :=
  time_start m = time_start i /\ bandNames m = bandNames i.

(** The value of a normalised difference at a pixel, given the values of
    its two bands there. *)
Definition spec_normalized_difference (divide : Q -> Q -> option Q) (a b : option Q) : option Q :=
  match a, b with
  | Some x, Some y => divide (x - y)%Q (x + y)%Q
  | _, _ => None
  end.

(** The raster the expression of an index evaluates to, on two bands. *)
Definition index_raster (divide : Q -> Q -> option Q) (a b : raster) : raster :=
  Expression.pointwise divide Expression.Div
    (Expression.pointwise divide Expression.Sub a b)
    (Expression.pointwise divide Expression.Add a b).

(** The metrics as the specification words them, over (prediction,
    observation) pairs. *)
Definition spec_mean (l : list Q) : Q :=
  (EEList.sum l / inject_Z (Z.of_nat (List.length l)))%Q.

Definition spec_rmse (sqrt : Q -> Q) (pairs : list (Q * Q)) : Q :=
  sqrt (spec_mean (map (fun po => ((fst po - snd po) ^ 2)%Q) pairs)).

Definition spec_mae (pairs : list (Q * Q)) : Q :=
  spec_mean (map (fun po => Qabs (fst po - snd po)) pairs).

(** A row of the classified testing table carrying this prediction and
    this observation. *)
Definition carries (f : Feature) (po : Q * Q) : Prop :=
  get f "classification" = Some (fst po) /\ get f "rh95" = Some (snd po).

(** A request whose value is an error. *)
Definition reports_failure (e : Event) : bool :=
  match e with
  | Print _ (PNumber (Err _)) => true
  | Print _ (PExplain (Err _)) => true
  | Print _ (PImportance (Err _)) => true
  | ExportTableToDrive (Err _) _ _ _ _ => true
  | ExportImageToDrive (Err _) _ _ _ _ _ _ _ => true
  | _ => false
  end.

(** The print of the forest's description, the first request of a run
    that has the platform fit the forest. *)
Definition asks_for_the_forest (e : Event) : bool :=
  match e with
  | Print _ (PExplain _) => true
  | _ => false
  end.

(** The requests of a run that come before the forest is asked for. *)
Fixpoint before_fitting (run : list Event) : list Event :=
  match run with
  | [] => []
  | e :: rest => if asks_for_the_forest e then [] else e :: before_fitting rest
  end.

(** The two masks of [qualityMask] in a row, as one function on rasters:
    [q] and [d] are the two flag bands. *)
Definition both (q d r : raster) : raster :=
  EEImage.mask_by (EEImage.eq_const 0 d) (EEImage.mask_by (EEImage.eq_const 1 q) r).


(** The absolute difference of an (observation, prediction) pair, the
    quantity the MAE averages. *)
Definition gap (pair : Q * Q) : Q := Qabs (snd pair - fst pair).

(** * Fixtures *)

(** A monthly GEDI image with constant bands, and a region. *)
Definition const_raster (v : Q) : raster := fun _ => Some v.

Definition shot (t : Z) (q d : Q) : Image :=
  mkImage t
    [("rh50", const_raster 5); ("rh95", const_raster 20);
     ("quality_flag", const_raster q); ("degrade_flag", const_raster d);
     ("lat_highestreturn", const_raster 42); ("lon_highestreturn", const_raster (-75));
     ("sensitivity", const_raster 0.95)].

Definition july_2019 : Z := 1561939200000.

Definition west_of_10 : Geometry := fun p => (fst p <? 10)%Z.

(** Earth Engine's documented division, which returns 0 for a
    division by 0 and never masks, and a composite with constant bands. *)
Definition ee_divide (x y : Q) : option Q := Some (x / y)%Q.

Definition composite (nir red swir1 swir2 : Q) : Image :=
  mkImage 0
    [("B2_median", const_raster 0.04); ("B3_median", const_raster 0.06);
     ("B4_median", const_raster red); ("B5_median", const_raster 0.1);
     ("B7_median", const_raster 0.3); ("B8_median", const_raster nir);
     ("B11_median", const_raster swir1); ("B12_median", const_raster swir2)].

(** A generator with values in [0, 1) and a small sample table,
    one of whose rows has no height. *)
Definition gen (seed : Z) (key : string) : Q :=
  (((Z.of_nat (String.length key) * 37 + seed) mod 100)%Z # 100)%Q.

(** A generator that is [gen] at seed 0 and a constant at every other
    seed. *)
Definition gen_at_0 (seed : Z) (key : string) : Q :=
  if (seed =? 0)%Z then gen 0 key else 0.5%Q.

Definition sample (index : string) (at_ : pixel) (height : option Q) : Feature :=
  mkFeature index (Some at_)
    (match height with
     | Some h => <["rh95" := h]> ∅
     | None => ∅
     end).

Definition four_samples : FeatureCollection :=
  [sample "a" (0, 0)%Z (Some 10%Q); sample "bb" (1, 0)%Z None;
   sample "ccc" (2, 0)%Z (Some 30%Q); sample "dd" (3, 0)%Z (Some 5%Q)].

(** The rows of the synthetic check, observed 10, 20, 30 against
    predicted 12, 18, 33. *)
Definition row (index : string) (obs pred : Q) : Feature :=
  mkFeature index None (<["rh95" := obs]> (<["classification" := pred]> ∅)).

Definition three_rows : FeatureCollection :=
  [row "0_0" 10 12; row "1_0" 20 18; row "2_0" 30 33].

(** A forest that answers 12 everywhere, a composite whose red
    band is masked from column 4 on, and a fifth sample on that part. *)
Definition flat_forest : Classifier -> list Q -> Q := fun _ _ => 12%Q.

(** A fit that fails on a training table of no rows and on nothing else. *)
Definition fit_some_rows (c : Classifier) : result unit :=
  match trainedOn c with
  | Some t =>
      match features t with
      | [] => Err "No data was found in classifier training input."
      | _ :: _ => Ok tt
      end
  | None => Ok tt
  end.

Definition holed_composite : Image :=
  mkImage 0
    [("B2_median", const_raster 0.04); ("B3_median", const_raster 0.06);
     ("B4_median", fun p => if (fst p <? 4)%Z then Some 0.1%Q else None);
     ("B5_median", const_raster 0.1); ("B7_median", const_raster 0.3);
     ("B8_median", const_raster 0.4); ("B11_median", const_raster 0.2);
     ("B12_median", const_raster 0.15)].

Definition five_samples : FeatureCollection :=
  four_samples ++ [sample "ee" (4, 0)%Z (Some 12%Q)].

(** A square root by four Heron steps. *)
Definition heron_step (x y : Q) : Q := Qred ((y + x / y) / 2).

Definition heron_sqrt (x : Q) : Q :=
  heron_step x (heron_step x (heron_step x (heron_step x (Qred ((x + 1) / 2))))).

(** A median: the lower middle value of the sorted list. *)
Fixpoint insert_sorted (x : Q) (l : list Q) : list Q :=
  match l with
  | [] => [x]
  | y :: l' => if Qle_bool x y then x :: l else y :: insert_sorted x l'
  end.

Definition lower_median (l : list Q) : Q :=
  nth ((List.length l - 1) / 2) (fold_right insert_sorted [] l) 0%Q.

(** A monthly GEDI image like [shot] with another height. *)
Definition shot_of_height (t : Z) (h : Q) : Image :=
  mkImage t
    [("rh50", const_raster 5); ("rh95", const_raster h);
     ("quality_flag", const_raster 1); ("degrade_flag", const_raster 0);
     ("lat_highestreturn", const_raster 42); ("lon_highestreturn", const_raster (-75))].

(** * Properties *)

(** ** Selectors *)

Module SelectorFacts.
Import Selector.

Lemma match_literal_items (l s : list ascii) :
  match_items (map (fun c => (Lit c, false)) l) s = true <-> s = l.
Proof.
  revert s. induction l as [|c l IH]; intros [|d s]; simpl; try (split; congruence).
  rewrite andb_true_iff, Ascii.eqb_eq, IH. split.
  - intros [-> ->]. reflexivity.
  - intros [= -> ->]. split; reflexivity.
Qed.

Lemma matches_literal (re name : string) :
  literal re -> matches re name = true <-> name = re.
Proof.
  intros Hlit. unfold matches. rewrite Hlit, match_literal_items. split.
  - intros H. rewrite <- (string_of_list_ascii_of_string name), H.
    apply string_of_list_ascii_of_string.
  - intros ->. reflexivity.
Qed.

Lemma star_any (s : list ascii) :
  (fix star (s : list ascii) : bool :=
     match_items [] s ||
     match s with
     | c :: s' => atom_ok Any c && star s'
     | [] => false
     end) s = true.
Proof.
  induction s as [|c s IH]; simpl; [reflexivity|]. exact IH.
Qed.

(** ['rh.*'] selects the names that start with [rh]. *)
Lemma matches_rh (name : string) :
  matches "rh.*" name = true <-> exists rest, name = "rh" +:+ rest.
Proof.
  unfold matches.
  change (compile (list_ascii_of_string "rh.*"))
    with [(Lit "r"%char, false); (Lit "h"%char, false); (Any, true)].
  destruct name as [|a [|b rest]];
    cbn [list_ascii_of_string match_items atom_ok String.append].
  - split; [discriminate | intros [rest [=]]].
  - rewrite andb_false_r. split; [discriminate | intros [rest [=]]].
  - rewrite star_any, andb_true_r, andb_true_iff, !Ascii.eqb_eq. split.
    + intros [<- <-]. exists rest. reflexivity.
    + intros [rest' [= <- <- _]]. split; reflexivity.
Qed.

End SelectorFacts.

(** ** The result monad *)

Lemma rbind_ok {A B} (r : result A) (k : A -> result B) (b : B) :
  rbind r k = Ok b -> exists a, r = Ok a /\ k a = Ok b.
Proof.
  destruct r as [a|m]; simpl; [|discriminate]. intros H. exists a. split; [reflexivity|exact H].
Qed.

Lemma rmapM_ok {A B} (f : A -> result B) (l : list A) (l' : list B) :
  rmapM f l = Ok l' -> Forall2 (fun a b => f a = Ok b) l l'.
Proof.
  revert l'. induction l as [|a l IH]; simpl; intros l' H.
  - injection H as <-. constructor.
  - apply rbind_ok in H as (b & Hb & H).
    apply rbind_ok in H as (bs & Hbs & H).
    injection H as <-. constructor; [exact Hb | apply IH, Hbs].
Qed.


Lemma rmapM_exists {A B} (f : A -> result B) (l : list A) :
  (forall a, In a l -> exists b, f a = Ok b) -> exists l', rmapM f l = Ok l'.
Proof.
  induction l as [|a l IH]; simpl; intros H; [eexists; reflexivity|].
  destruct (H a (or_introl Logic.eq_refl)) as [b Hb].
  destruct IH as [l' Hl']; [intros x Hx; apply H; right; exact Hx|].
  rewrite Hb, Hl'. simpl. eexists. reflexivity.
Qed.

Ltac ok_inv H :=
  repeat match type of H with
         | rbind _ _ = Ok _ =>
             let a := fresh "a" in
             let Ha := fresh "Ha" in
             apply rbind_ok in H as (a & Ha & H)
         end.

(** ** Images *)

Module ImageFacts.
Import EEImage.

Lemma select_one_ok (im : Image) (re : string) (bs : list (string * raster)) :
  select_one im re = Ok bs ->
  bs = List.filter (fun b => Selector.matches re (fst b)) (bands im).
Proof.
  unfold select_one.
  destruct (List.filter _ (bands im)) as [|b l]; [discriminate|].
  intros [= <-]. reflexivity.
Qed.

Lemma select_ok (im : Image) (selectors : list string) (o : Image) :
  select im selectors = Ok o ->
  time_start o = time_start im /\
  forall b, In b (bands o) ->
    In b (bands im) /\
    exists re, In re selectors /\ Selector.matches re (fst b) = true.
Proof.
  unfold select. intros H. ok_inv H. injection H as <-. simpl.
  split; [reflexivity|]. intros b Hb.
  apply rmapM_ok in Ha. apply in_concat in Hb as (bs & Hbs & Hb).
  induction Ha as [|re bs' res bss Hre _ IH]; [destruct Hbs|].
  destruct Hbs as [->|Hbs].
  - apply select_one_ok in Hre. subst bs.
    apply filter_In in Hb as [Hin Hm]. split; [exact Hin|].
    exists re. split; [left; reflexivity | exact Hm].
  - destruct (IH Hbs) as (Hin & re' & Hre' & Hm). split; [exact Hin|].
    exists re'. split; [right; exact Hre' | exact Hm].
Qed.

Lemma filter_unique (name : string) (r : raster) (bs : list (string * raster)) :
  List.NoDup (map fst bs) ->
  find (fun b => String.eqb (fst b) name) bs = Some (name, r) ->
  List.filter (fun b => String.eqb name (fst b)) bs = [(name, r)].
Proof.
  induction bs as [|[n x] bs IH]; simpl; [discriminate|].
  intros Hnd Hfind. inversion Hnd as [|? ? Hnotin Hnd']; subst.
  destruct (String.eqb n name) eqn:Hn.
  - injection Hfind as -> ->. rewrite String.eqb_refl. f_equal.
    clear IH Hnd Hnd'. induction bs as [|[n' x'] bs IH]; simpl; [reflexivity|].
    simpl in Hnotin. destruct (String.eqb name n') eqn:Hn'.
    + apply String.eqb_eq in Hn'. subst n'. exfalso. apply Hnotin. left. reflexivity.
    + apply IH. intros Hin. apply Hnotin. right. exact Hin.
  - rewrite String.eqb_sym, Hn. apply IH; assumption.
Qed.

Lemma band_find (im : Image) (name : string) (r : raster) :
  band im name = Some r ->
  find (fun b => String.eqb (fst b) name) (bands im) = Some (name, r).
Proof.
  unfold band. destruct (find _ (bands im)) as [[n x]|] eqn:Hf; [|discriminate].
  simpl. intros [= ->]. apply find_some in Hf as [_ Hn]. simpl in Hn.
  apply String.eqb_eq in Hn. subst n. reflexivity.
Qed.

Lemma matches_literal_eqb (re name : string) :
  literal re -> Selector.matches re name = String.eqb re name.
Proof.
  intros Hlit. destruct (String.eqb re name) eqn:He.
  - apply String.eqb_eq in He. subst name. apply SelectorFacts.matches_literal; auto.
  - destruct (Selector.matches re name) eqn:Hm; [|reflexivity].
    apply SelectorFacts.matches_literal in Hm; [|exact Hlit]. subst name.
    rewrite String.eqb_refl in He. discriminate.
Qed.

Lemma select_literal (im : Image) (name : string) (r : raster) :
  literal name ->
  List.NoDup (bandNames im) ->
  band im name = Some r ->
  select im [name] = Ok (mkImage (time_start im) [(name, r)]).
Proof.
  intros Hlit Hnd Hb. unfold select, select_one. simpl.
  rewrite (filter_ext _ (fun b => String.eqb name (fst b)))
    by (intros b; apply matches_literal_eqb, Hlit).
  rewrite (filter_unique name r); [reflexivity | exact Hnd | apply band_find, Hb].
Qed.

Lemma select_total (im : Image) (selectors : list string) :
  (forall re, In re selectors ->
     exists name, In name (bandNames im) /\ Selector.matches re name = true) ->
  exists o, select im selectors = Ok o.
Proof.
  intros H. unfold select.
  destruct (rmapM_exists (select_one im) selectors) as [bss Hbss].
  - intros re Hre. destruct (H re Hre) as (name & Hin & Hm).
    unfold select_one, bandNames in *. apply in_map_iff in Hin as (b & <- & Hb).
    destruct (List.filter _ (bands im)) as [|x l] eqn:Hf; [|eexists; reflexivity].
    assert (Hin : In b (List.filter (fun b => Selector.matches re (fst b)) (bands im)))
      by (apply filter_In; split; assumption).
    rewrite Hf in Hin. destruct Hin.
  - rewrite Hbss. simpl. eexists. reflexivity.
Qed.

Lemma mask_pairwise_rel (mask : Image) (bs ms : list (string * raster)) :
  List.length ms = List.length bs ->
  (forall m, In m ms -> In m (bands mask)) ->
  Forall2 (masked_from mask) (mask_pairwise bs ms) bs.
Proof.
  revert ms. induction bs as [|b bs IH]; intros [|m ms]; simpl; try discriminate.
  - constructor.
  - intros [= Hlen] Hin. constructor.
    + split; [reflexivity|]. exists m. split; [apply Hin; left; reflexivity | reflexivity].
    + apply IH; [exact Hlen | intros x Hx; apply Hin; right; exact Hx].
Qed.

Lemma map_bands_rel (mask : Image) (m : string * raster) (bs : list (string * raster)) :
  In m (bands mask) ->
  Forall2 (masked_from mask) (map (fun b => (fst b, mask_by (snd m) (snd b))) bs) bs.
Proof.
  intros Hm. induction bs as [|b bs IH]; simpl; constructor; [|exact IH].
  split; [reflexivity|]. exists m. split; [exact Hm | reflexivity].
Qed.

Lemma updateMask_ok (im mask o : Image) :
  updateMask im mask = Ok o ->
  time_start o = time_start im /\
  Forall2 (masked_from mask) (bands o) (bands im).
Proof.
  unfold updateMask.
  destruct (bands mask) as [|m [|m' ms]] eqn:Hmask.
  - destruct (Nat.eqb _ _) eqn:Hlen; [|discriminate].
    intros [= <-]. simpl. split; [reflexivity|].
    apply Nat.eqb_eq in Hlen. apply mask_pairwise_rel; [exact Hlen | intros x []].
  - intros [= <-]. simpl. split; [reflexivity|].
    apply map_bands_rel. rewrite Hmask. left. reflexivity.
  - destruct (Nat.eqb _ _) eqn:Hlen; [|discriminate].
    intros [= <-]. simpl. split; [reflexivity|].
    apply Nat.eqb_eq in Hlen. apply mask_pairwise_rel; [exact Hlen|].
    rewrite Hmask. intros x Hx. exact Hx.
Qed.

End ImageFacts.

(** ** The quality mask *)

Module QualityFacts.
Import EEImage ImageFacts.

Lemma Forall2_compose {A B C} (R : A -> B -> Prop) (S : B -> C -> Prop) l1 l2 l3 :
  Forall2 R l1 l2 -> Forall2 S l2 l3 ->
  Forall2 (fun a c => exists b, R a b /\ S b c) l1 l3.
Proof.
  intros H. revert l3. induction H as [|a b l1 l2 Hab _ IH]; intros l3 H3.
  - inversion H3. constructor.
  - inversion H3 as [|? c ? l3' Hbc Hrest]; subst. constructor.
    + exists b. split; assumption.
    + apply IH, Hrest.
Qed.

Lemma mask_by_eq_const (c : Q) (r' r0 : raster) (p : pixel) (v : Q) :
  mask_by (eq_const c r') r0 p = Some v ->
  r0 p = Some v /\ exists w, r' p = Some w /\ (w == c)%Q.
Proof.
  unfold mask_by, eq_const. destruct (r' p) as [w|]; simpl; [|discriminate].
  destruct (Qeq_bool w c) eqn:Hw; simpl; [|discriminate].
  intros H. split; [exact H|]. exists w. split; [reflexivity|].
  apply Qeq_bool_iff, Hw.
Qed.

Lemma flag_mask (im q : Image) (flag : string) (c : Q) (m : string * raster)
    (r0 : raster) (p : pixel) (v : Q) :
  literal flag ->
  select im [flag] = Ok q ->
  In m (bands (eq q c)) ->
  mask_by (snd m) r0 p = Some v ->
  r0 p = Some v /\ flag_is im flag c p.
Proof.
  intros Hlit Hsel Hm Hv.
  unfold eq, map_bands in Hm. simpl in Hm.
  apply in_map_iff in Hm as ([n r'] & <- & Hin). simpl in *.
  apply mask_by_eq_const in Hv as (Hv & w & Hw & Heq).
  split; [exact Hv|].
  apply select_ok in Hsel as (_ & Hsel).
  destruct (Hsel _ Hin) as (Him & re & [<-|[]] & Hmatch). simpl in Hmatch.
  apply SelectorFacts.matches_literal in Hmatch; [|exact Hlit]. subst n.
  exists r', w. repeat split; assumption.
Qed.

Lemma qualityMask_ok (im out : Image) :
  qualityMask im = Ok out ->
  time_start out = time_start im /\
  Forall2 (fun b b0 =>
             fst b = fst b0 /\
             forall p v, snd b p = Some v ->
               snd b0 p = Some v /\
               flag_is im "quality_flag" 1 p /\
               flag_is im "degrade_flag" 0 p)
    (bands out) (bands im).
Proof.
  unfold qualityMask. intros H. ok_inv H.
  rename a into q, a0 into m1, a1 into d.
  apply updateMask_ok in Ha0 as (Ht1 & H1).
  apply updateMask_ok in H as (Ht2 & H2).
  split; [rewrite Ht2; exact Ht1|].
  eapply Forall2_impl; [exact (Forall2_compose _ _ _ _ _ H2 H1)|].
  intros b b0 (b1 & (Hn2 & m2 & Hm2 & Hr2) & (Hn1 & m & Hm & Hr1)).
  split; [exact (eq_trans Hn2 Hn1)|]. intros p v Hv.
  rewrite Hr2 in Hv.
  apply (flag_mask im d "degrade_flag" 0 m2) in Hv as (Hv & Hd);
    [| reflexivity | exact Ha1 | exact Hm2].
  rewrite Hr1 in Hv.
  apply (flag_mask im q "quality_flag" 1 m) in Hv as (Hv & Hq);
    [| reflexivity | exact Ha | exact Hm].
  auto.
Qed.

(** On an image with distinct band names and the two flag bands the mask
    is computed, and it is this image. *)
Lemma qualityMask_total (im : Image) (q d : raster) :
  List.NoDup (bandNames im) ->
  band im "quality_flag" = Some q ->
  band im "degrade_flag" = Some d ->
  qualityMask im =
  Ok (mkImage (time_start im)
        (map (fun b => (fst b, mask_by (eq_const 0 d) (mask_by (eq_const 1 q) (snd b))))
             (bands im))).
Proof.
  intros Hnd Hq Hd. unfold qualityMask.
  rewrite (select_literal im "quality_flag" q), (select_literal im "degrade_flag" d)
    by (reflexivity || assumption).
  cbn [rbind]. unfold updateMask, eq, map_bands. simpl. rewrite map_map. reflexivity.
Qed.

(** A pixel of a band survives exactly when it was valid and both flags
    are valid there with the values 1 and 0. *)
Lemma survives_iff (q d r : raster) (p : pixel) (v : Q) :
  mask_by (eq_const 0 d) (mask_by (eq_const 1 q) r) p = Some v <->
  r p = Some v /\
  (exists w, q p = Some w /\ (w == 1)%Q) /\
  (exists w, d p = Some w /\ (w == 0)%Q).
Proof.
  split.
  - intros H. apply mask_by_eq_const in H as (H & Hd).
    apply mask_by_eq_const in H as (H & Hq). auto.
  - intros (Hr & (w & Hw & Hw1) & (u & Hu & Hu0)).
    unfold mask_by, eq_const. rewrite Hu, Hw. simpl.
    apply Qeq_bool_iff in Hw1, Hu0. rewrite Hw1, Hu0. simpl. exact Hr.
Qed.

End QualityFacts.

Module FrameFacts.

Lemma Forall2_in_r {A B} (R : A -> B -> Prop) l l' b :
  Forall2 R l l' -> In b l' -> exists a, In a l /\ R a b.
Proof.
  induction 1 as [|a b' l l' Hab _ IH]; intros Hin; [destruct Hin|].
  destruct Hin as [->|Hin].
  - exists a. split; [left; reflexivity | exact Hab].
  - destruct (IH Hin) as (a' & Ha' & HR). exists a'. split; [right; exact Ha' | exact HR].
Qed.

Lemma Forall2_in_l {A B} (R : A -> B -> Prop) l l' a :
  Forall2 R l l' -> In a l -> exists b, In b l' /\ R a b.
Proof.
  induction 1 as [|a' b l l' Hab _ IH]; intros Hin; [destruct Hin|].
  destruct Hin as [->|Hin].
  - exists b. split; [left; reflexivity | exact Hab].
  - destruct (IH Hin) as (b' & Hb' & HR). exists b'. split; [right; exact Hb' | exact HR].
Qed.

Lemma Forall2_names (P : string * raster -> string * raster -> Prop) bs bs0 :
  Forall2 (fun b b0 => fst b = fst b0 /\ P b b0) bs bs0 ->
  map fst bs = map fst bs0.
Proof.
  induction 1 as [|b b0 bs bs0 [Hn _] _ IH]; simpl; [reflexivity|].
  rewrite Hn, IH. reflexivity.
Qed.

Lemma Forall2_find (P : string * raster -> string * raster -> Prop) bs bs0 name b :
  Forall2 (fun b b0 => fst b = fst b0 /\ P b b0) bs bs0 ->
  find (fun b => String.eqb (fst b) name) bs = Some b ->
  exists b0, find (fun b => String.eqb (fst b) name) bs0 = Some b0 /\ P b b0.
Proof.
  induction 1 as [|x x0 bs bs0 [Hn HP] _ IH]; simpl; [discriminate|].
  rewrite <- Hn. destruct (String.eqb (fst x) name).
  - intros [= <-]. exists x0. split; [reflexivity | exact HP].
  - exact IH.
Qed.

End FrameFacts.

(** C10.  When the quality mask is applied to an image, the result has the
    timestamp and the band names of the input, and every band of the
    result, at every pixel where it is still valid, holds the value the
    same band of the input holds there: the mask removes pixels and
    changes nothing else. *)
Theorem qualityMask_frame (im out : Image) :
  qualityMask im = Ok out ->
  time_start out = time_start im /\
  bandNames out = bandNames im /\
  forall name r, band out name = Some r ->
    exists r0, band im name = Some r0 /\
               forall p v, r p = Some v -> r0 p = Some v.
Proof.
  intros H. apply QualityFacts.qualityMask_ok in H as (Ht & Hb).
  split; [exact Ht|]. split.
  - unfold bandNames. exact (FrameFacts.Forall2_names _ _ _ Hb).
  - intros name r Hr. unfold band in *.
    destruct (find _ (bands out)) as [b|] eqn:Hfind; [|discriminate].
    injection Hr as <-.
    destruct (FrameFacts.Forall2_find _ _ _ _ _ Hb Hfind) as (b0 & Hfind0 & HP).
    exists (snd b0). rewrite Hfind0. split; [reflexivity|].
    intros p v Hv. apply (HP p v Hv).
Qed.

Lemma qualityMask_frame_witness :
  exists out,
    qualityMask (shot july_2019 1 0) = Ok out /\
    time_start out = july_2019 /\
    bandNames out = bandNames (shot july_2019 1 0) /\
    forall name r, band out name = Some r ->
      exists r0, band (shot july_2019 1 0) name = Some r0 /\
                 forall p v, r p = Some v -> r0 p = Some v.
Proof.
  eexists. split; [reflexivity|].
  apply (qualityMask_frame (shot july_2019 1 0)). reflexivity.
Defined.

(** ** The quality filter *)

Module GediFacts.
Import EEImage ImageFacts FrameFacts.

Lemma window_bounds :
  EEDate.parse_date "2019-06-01" = Ok 1559347200000%Z /\
  EEDate.parse_date "2019-10-01" = Ok 1569888000000%Z.
Proof. split; reflexivity. Qed.

Lemma filterDate_ok (c c' : ImageCollection) :
  EEImageCollection.filterDate c "2019-06-01" "2019-10-01" = Ok c' ->
  c' = List.filter (EEImageCollection.in_window 1559347200000 1569888000000) c.
Proof.
  unfold EEImageCollection.filterDate.
  destruct window_bounds as [-> ->]. simpl. intros [= <-]. reflexivity.
Qed.

Lemma kept_name (name : string) :
  (exists re, In re ["rh.*"; "lat_highestreturn"; "lon_highestreturn"] /\
              Selector.matches re name = true) ->
  (exists rest, name = "rh" +:+ rest) \/
  name = "lat_highestreturn" \/ name = "lon_highestreturn".
Proof.
  intros (re & [<-|[<-|[<-|[]]]] & Hm).
  - left. apply SelectorFacts.matches_rh, Hm.
  - right. left. apply (SelectorFacts.matches_literal "lat_highestreturn"); [reflexivity | exact Hm].
  - right. right. apply (SelectorFacts.matches_literal "lon_highestreturn"); [reflexivity | exact Hm].
Qed.

Lemma qualityMask_shape (i m : Image) : qualityMask i = Ok m -> same_shape i m.
Proof.
  intros H. apply QualityFacts.qualityMask_ok in H as (Ht & Hb).
  split; [exact Ht | exact (Forall2_names _ _ _ Hb)].
Qed.

Lemma filter_shape (lo hi : Z) (c c1 : ImageCollection) :
  Forall2 same_shape c c1 ->
  Forall2 same_shape
    (List.filter (EEImageCollection.in_window lo hi) c)
    (List.filter (EEImageCollection.in_window lo hi) c1).
Proof.
  induction 1 as [|i m c c1 [Ht Hn] _ IH]; [constructor|].
  cbn [List.filter].
  replace (EEImageCollection.in_window lo hi m) with (EEImageCollection.in_window lo hi i)
    by (unfold EEImageCollection.in_window; rewrite Ht; reflexivity).
  destruct (EEImageCollection.in_window lo hi i);
    [constructor; [split; assumption | exact IH] | exact IH].
Qed.

Lemma shape_times (c c1 : ImageCollection) :
  Forall2 same_shape c c1 -> map time_start c1 = map time_start c.
Proof.
  induction 1 as [|i m c c1 [Ht _] _ IH]; simpl; [reflexivity|].
  rewrite Ht, IH. reflexivity.
Qed.

Lemma clip_names (im : Image) (g : Geometry) :
  bandNames (EEImage.clip im g) = bandNames im.
Proof.
  unfold bandNames, EEImage.clip, EEImage.map_bands. simpl.
  rewrite map_map. reflexivity.
Qed.

Lemma selectors_match (names : list string) :
  In "lat_highestreturn" names ->
  In "lon_highestreturn" names ->
  (exists rest, In ("rh" +:+ rest) names) ->
  forall re, In re ["rh.*"; "lat_highestreturn"; "lon_highestreturn"] ->
    exists name, In name names /\ Selector.matches re name = true.
Proof.
  intros Hlat Hlon (rest & Hrh) re [<-|[<-|[<-|[]]]].
  - exists ("rh" +:+ rest). split; [exact Hrh|].
    apply SelectorFacts.matches_rh. exists rest. reflexivity.
  - exists "lat_highestreturn". split; [exact Hlat | reflexivity].
  - exists "lon_highestreturn". split; [exact Hlon | reflexivity].
Qed.

(** On GEDI images the filter is computed, and its output has one image
    for each raw image dated in the window, in the same order. *)
Lemma gedi_total (ROI : Geometry) (collection : ImageCollection) :
  Forall gedi_image collection ->
  exists out,
    gedi ROI collection = Ok out /\
    map time_start out =
    map time_start
      (List.filter (EEImageCollection.in_window 1559347200000 1569888000000) collection).
Proof.
  intros Hwf. rewrite Forall_forall in Hwf.
  destruct (rmapM_exists qualityMask collection) as [c1 Hc1].
  { intros i Hi. apply list_elem_of_In in Hi.
    destruct (Hwf i Hi) as (Hnd & [q Hq] & [d Hd] & _).
    eexists. apply (QualityFacts.qualityMask_total i q d); assumption. }
  pose proof (rmapM_ok _ _ _ Hc1) as Hrel.
  assert (Hshape : Forall2 same_shape collection c1).
  { eapply Forall2_impl; [exact Hrel|]. intros i m. apply qualityMask_shape. }
  assert (Hnames : Forall2 (fun i m => gedi_image i /\ same_shape i m) collection c1).
  { clear Hc1 Hrel. induction Hshape as [|i m c c1 Hs _ IH]; constructor.
    - split; [apply Hwf, list_elem_of_In; left; reflexivity | exact Hs].
    - apply IH. intros x Hx. apply Hwf. right. exact Hx. }
  set (c2 := List.filter (EEImageCollection.in_window 1559347200000 1569888000000) c1).
  set (c3 := map (fun im => EEImage.clip im ROI) c2).
  destruct (rmapM_exists
              (fun im => EEImage.select im ["rh.*"; "lat_highestreturn"; "lon_highestreturn"])
              c3) as [out Hout].
  { intros x Hx. unfold c3 in Hx. apply in_map_iff in Hx as (m & <- & Hm).
    unfold c2 in Hm. apply filter_In in Hm as [Hm _].
    destruct (Forall2_in_r _ _ _ _ Hnames Hm) as (i & _ & Hgi & _ & Hn).
    destruct Hgi as (_ & _ & _ & Hlat & Hlon & Hrh).
    apply select_total. rewrite clip_names, Hn.
    apply selectors_match; assumption. }
  exists out. split.
  - unfold gedi. rewrite Hc1. cbn [rbind].
    unfold EEImageCollection.filterDate. destruct window_bounds as [-> ->]. cbn [rbind].
    exact Hout.
  - apply rmapM_ok in Hout.
    assert (Ht : map time_start out = map time_start c3).
    { clear - Hout. induction Hout as [|m o c3 out Hsel _ IH]; simpl; [reflexivity|].
      apply select_ok in Hsel as [-> _]. rewrite IH. reflexivity. }
    rewrite Ht. unfold c3. rewrite map_map. simpl.
    change (map (fun x => time_start x) c2) with (map time_start c2).
    unfold c2. apply shape_times, filter_shape, Hshape.
Qed.

(** The narrowed collection carries rh95 alone. *)
Lemma gedi95_only_rh95 (ROI : Geometry) (collection out : ImageCollection) :
  gedi95 ROI collection = Ok out ->
  forall o name, In o out -> In name (bandNames o) -> name = "rh95".
Proof.
  unfold gedi95. intros H o name Ho Hname. ok_inv H.
  unfold EEImageCollection.select in H. apply rmapM_ok in H.
  destruct (Forall2_in_r _ _ _ _ H Ho) as (m & _ & Hsel).
  apply select_ok in Hsel as (_ & Hsel).
  unfold bandNames in Hname. apply in_map_iff in Hname as (b & <- & Hb).
  destruct (Hsel b Hb) as (_ & re & [<-|[]] & Hm).
  apply (SelectorFacts.matches_literal "rh95"); [reflexivity | exact Hm].
Qed.

End GediFacts.

(** C1, as the code has it.  Every image of the filtered collection comes
    from an image of the raw collection whose date lies in the window from
    2019-06-01 (inclusive) to 2019-10-01 (exclusive), which is 122 days
    long; each of its bands is a band of that image whose name starts with
    [rh] or is one of the two coordinate bands; and wherever such a band is
    valid, the pixel lies in the ROI, the raw image has quality_flag 1 and
    degrade_flag 0 there, and the value is the raw value. *)
Theorem gedi_sound (ROI : Geometry) (collection out : ImageCollection) :
  gedi ROI collection = Ok out ->
  forall o, In o out ->
    exists i lo hi,
      In i collection /\
      time_start o = time_start i /\
      EEDate.parse_date "2019-06-01" = Ok lo /\
      EEDate.parse_date "2019-10-01" = Ok hi /\
      (hi - lo = 122 * EEDate.millis_per_day)%Z /\
      (lo <= time_start i < hi)%Z /\
      forall name r, In (name, r) (bands o) ->
        ((exists rest, name = "rh" +:+ rest) \/
         name = "lat_highestreturn" \/ name = "lon_highestreturn") /\
        exists r0,
          In (name, r0) (bands i) /\
          forall p v, r p = Some v ->
            ROI p = true /\
            flag_is i "quality_flag" 1 p /\
            flag_is i "degrade_flag" 0 p /\
            r0 p = Some v.
Proof.
  unfold gedi. intros H o Ho. ok_inv H. rename a into c1, a0 into c2.
  apply rmapM_ok in Ha. apply GediFacts.filterDate_ok in Ha0. subst c2.
  unfold EEImageCollection.select in H. apply rmapM_ok in H.
  destruct (FrameFacts.Forall2_in_r _ _ _ _ H Ho) as (m' & Hm' & Hsel).
  apply in_map_iff in Hm' as (m & <- & Hm).
  apply filter_In in Hm as (Hm & Hwin).
  destruct (FrameFacts.Forall2_in_r _ _ _ _ Ha Hm) as (i & Hi & Hq).
  apply QualityFacts.qualityMask_ok in Hq as (Htm & Hbands).
  apply ImageFacts.select_ok in Hsel as (Hto & Hsel).
  exists i, 1559347200000%Z, 1569888000000%Z.
  split; [exact Hi|]. split; [rewrite Hto; exact Htm|].
  split; [reflexivity|]. split; [reflexivity|]. split; [reflexivity|].
  split.
  - unfold EEImageCollection.in_window in Hwin. rewrite Htm in Hwin.
    apply andb_true_iff in Hwin as [Hlo Hhi].
    apply Z.leb_le in Hlo. apply Z.ltb_lt in Hhi. split; assumption.
  - intros name r Hr. destruct (Hsel _ Hr) as (Hin & Hre). simpl in Hre.
    split; [apply GediFacts.kept_name, Hre|].
    simpl in Hin. apply in_map_iff in Hin as (b1 & Heq & Hb1).
    injection Heq as Hname Hclip.
    destruct (FrameFacts.Forall2_in_l _ _ _ _ Hbands Hb1) as (b0 & Hb0 & Hn & Hv).
    exists (snd b0). split.
    + rewrite <- Hname, Hn. destruct b0; exact Hb0.
    + intros p v Hpv. rewrite <- Hclip in Hpv. unfold EEImage.clip_raster in Hpv.
      destruct (ROI p) eqn:Hroi; [|discriminate].
      destruct (Hv p v Hpv) as (H0 & Hqf & Hdf). auto.
Qed.

Lemma gedi_sound_witness :
  exists out o,
    gedi west_of_10 [shot july_2019 1 0] = Ok out /\ In o out /\
    exists i lo hi,
      In i [shot july_2019 1 0] /\
      time_start o = time_start i /\
      EEDate.parse_date "2019-06-01" = Ok lo /\
      EEDate.parse_date "2019-10-01" = Ok hi /\
      (hi - lo = 122 * EEDate.millis_per_day)%Z /\
      (lo <= time_start i < hi)%Z /\
      forall name r, In (name, r) (bands o) ->
        ((exists rest, name = "rh" +:+ rest) \/
         name = "lat_highestreturn" \/ name = "lon_highestreturn") /\
        exists r0,
          In (name, r0) (bands i) /\
          forall p v, r p = Some v ->
            west_of_10 p = true /\
            flag_is i "quality_flag" 1 p /\
            flag_is i "degrade_flag" 0 p /\
            r0 p = Some v.
Proof.
  eexists. eexists. split; [reflexivity|]. split; [left; reflexivity|].
  apply (gedi_sound west_of_10 [shot july_2019 1 0] _ Logic.eq_refl).
  left. reflexivity.
Defined.

(** C1, as stated, fails: a retained image still carries the other
    height percentiles, here rh50 besides rh95. *)
Lemma gedi_keeps_other_percentiles :
  ~ (forall ROI collection out o name,
       gedi ROI collection = Ok out -> In o out -> In name (bandNames o) ->
       In name ["rh95"; "lat_highestreturn"; "lon_highestreturn"]).
Proof.
  intros H.
  assert (Hout : exists out, gedi west_of_10 [shot july_2019 1 0] = Ok out /\
                   exists o, In o out /\ In "rh50" (bandNames o)).
  { eexists. split; [reflexivity|]. eexists. split; [left; reflexivity|].
    left. reflexivity. }
  destruct Hout as (out & Hg & o & Ho & Hn).
  specialize (H _ _ _ _ _ Hg Ho Hn).
  destruct H as [H|[H|[H|[]]]]; discriminate H.
Qed.

(** ** The index calculator *)

Module IndexFacts.
Import EEImage ImageFacts.

Lemma existsb_free (name : string) (taken : list string) :
  ~ In name taken -> existsb (String.eqb name) taken = false.
Proof.
  intros Hn. destruct (existsb _ taken) eqn:He; [|reflexivity].
  apply existsb_exists in He as (x & Hx & Heq). apply String.eqb_eq in Heq.
  subst x. contradiction.
Qed.

Lemma addBands_fresh (im : Image) (t : Z) (name : string) (r : raster) :
  ~ In name (bandNames im) ->
  addBands im (mkImage t [(name, r)]) =
  mkImage (time_start im) (bands im ++ [(name, r)]).
Proof.
  intros Hn. unfold addBands, fresh_name. simpl.
  unfold fresh_name. fold (bandNames im). rewrite (existsb_free _ _ Hn). reflexivity.
Qed.

Lemma nd_index (divide : Q -> Q -> option Q) (a b : raster) (p : pixel) :
  index_raster divide a b p = spec_normalized_difference divide (a p) (b p).
Proof.
  unfold index_raster, Expression.pointwise, spec_normalized_difference.
  destruct (a p), (b p); reflexivity.
Qed.

Lemma index_value (divide : Q -> Q -> option Q) (t : Z)
    (x y na nb : string) (a b : raster) :
  x <> y ->
  Expression.eval divide
    (<[x := mkImage t [(na, a)]]> (<[y := mkImage t [(nb, b)]]> ∅))
    (Expression.Bin Expression.Div
       (Expression.Bin Expression.Sub (Expression.Var x) (Expression.Var y))
       (Expression.Bin Expression.Add (Expression.Var x) (Expression.Var y)))
  = Ok (na, index_raster divide a b).
Proof.
  intros Hxy. cbn [Expression.eval].
  rewrite lookup_insert_eq, (lookup_insert_ne _ x y) by exact Hxy.
  rewrite lookup_insert_eq. reflexivity.
Qed.

Section Stacked.

Variable divide : Q -> Q -> option Q.
Variable image : Image.
Variables nir red swir1 swir2 : raster.
Hypothesis names_distinct : List.NoDup (bandNames image).
Hypothesis has_nir : band image "B8_median" = Some nir.
Hypothesis has_red : band image "B4_median" = Some red.
Hypothesis has_swir1 : band image "B11_median" = Some swir1.
Hypothesis has_swir2 : band image "B12_median" = Some swir2.

Lemma ndvi_ok :
  ndvi divide image = Ok (mkImage (time_start image) [("ndvi", index_raster divide nir red)]).
Proof.
  unfold ndvi.
  rewrite (select_literal image "B8_median" nir), (select_literal image "B4_median" red)
    by (reflexivity || assumption).
  cbn [rbind]. unfold Expression.expression.
  change (Expression.parse "((NIR - Red) / (NIR + Red))")
    with (Ok (Expression.Bin Expression.Div
       (Expression.Bin Expression.Sub (Expression.Var "NIR") (Expression.Var "Red"))
       (Expression.Bin Expression.Add (Expression.Var "NIR") (Expression.Var "Red")))).
  cbn [rbind]. rewrite index_value by discriminate. reflexivity.
Qed.

Lemma nbr_ok :
  nbr divide image = Ok (mkImage (time_start image) [("nbr", index_raster divide nir swir1)]).
Proof.
  unfold nbr.
  rewrite (select_literal image "B8_median" nir), (select_literal image "B11_median" swir1)
    by (reflexivity || assumption).
  cbn [rbind]. unfold Expression.expression.
  change (Expression.parse "((NIR - SWIR1) / (NIR + SWIR1))")
    with (Ok (Expression.Bin Expression.Div
       (Expression.Bin Expression.Sub (Expression.Var "NIR") (Expression.Var "SWIR1"))
       (Expression.Bin Expression.Add (Expression.Var "NIR") (Expression.Var "SWIR1")))).
  cbn [rbind]. rewrite index_value by discriminate. reflexivity.
Qed.

Lemma ndmi_ok :
  ndmi divide image = Ok (mkImage (time_start image) [("ndmi", index_raster divide nir swir2)]).
Proof.
  unfold ndmi.
  rewrite (select_literal image "B8_median" nir), (select_literal image "B12_median" swir2)
    by (reflexivity || assumption).
  cbn [rbind]. unfold Expression.expression.
  change (Expression.parse "((NIR - SWIR2) / (NIR + SWIR2))")
    with (Ok (Expression.Bin Expression.Div
       (Expression.Bin Expression.Sub (Expression.Var "NIR") (Expression.Var "SWIR2"))
       (Expression.Bin Expression.Add (Expression.Var "NIR") (Expression.Var "SWIR2")))).
  cbn [rbind]. rewrite index_value by discriminate. reflexivity.
Qed.

Hypothesis ndvi_free : ~ In "ndvi" (bandNames image).
Hypothesis nbr_free : ~ In "nbr" (bandNames image).
Hypothesis ndmi_free : ~ In "ndmi" (bandNames image).

Lemma stacked_ok :
  stacked divide image =
  Ok (mkImage (time_start image)
        (bands image ++ [("ndvi", index_raster divide nir red); ("nbr", index_raster divide nir swir1);
                         ("ndmi", index_raster divide nir swir2)])).
Proof.
  unfold stacked. rewrite ndvi_ok, nbr_ok, ndmi_ok. cbn [rbind].
  rewrite (addBands_fresh image _ "ndvi") by exact ndvi_free.
  rewrite (addBands_fresh (mkImage _ _) _ "nbr").
  2:{ unfold bandNames. simpl. rewrite map_app, in_app_iff. simpl.
      intros [H|[H|[]]]; [exact (nbr_free H) | discriminate H]. }
  simpl.
  rewrite (addBands_fresh (mkImage _ _) _ "ndmi").
  2:{ unfold bandNames. simpl. rewrite !map_app, !in_app_iff. simpl.
      intros [[H|[H|[]]]|[H|[]]]; [exact (ndmi_free H) | discriminate H | discriminate H]. }
  simpl. rewrite <- !app_assoc. reflexivity.
Qed.

End Stacked.

End IndexFacts.

Ltac names_apart :=
  match goal with
  | |- List.NoDup _ => apply NoDup_ListNoDup, (bool_decide_unpack _); vm_compute; exact I
  | |- ~ In _ _ => simpl; intuition discriminate
  end.

(** C4.  On a composite that has the four bands the formulas read, the
    extended raster is the composite followed by the three single-band
    rasters ndvi, nbr and ndmi, each of them the output of its formula; at
    a pixel where both bands are valid, each index is the platform's
    quotient of A - B by A + B, which is (A - B) / (A + B) whenever
    A + B is not 0; A is B8 (near infrared) throughout, B is B4 (red) for
    ndvi, B11 (shortwave infrared 1) for nbr and B12 (shortwave infrared
    2) for ndmi.  A pixel where A or B is masked is masked. *)
Theorem indices_normalized_difference
    (divide : Q -> Q -> option Q) (image : Image) (nir red swir1 swir2 : raster) :
  (forall x y, ~ (y == 0)%Q -> divide x y = Some (x / y)%Q) ->
  List.NoDup (bandNames image) ->
  band image "B8_median" = Some nir ->
  band image "B4_median" = Some red ->
  band image "B11_median" = Some swir1 ->
  band image "B12_median" = Some swir2 ->
  ~ In "ndvi" (bandNames image) ->
  ~ In "nbr" (bandNames image) ->
  ~ In "ndmi" (bandNames image) ->
  exists r_ndvi r_nbr r_ndmi,
    ndvi divide image = Ok (mkImage (time_start image) [("ndvi", r_ndvi)]) /\
    nbr divide image = Ok (mkImage (time_start image) [("nbr", r_nbr)]) /\
    ndmi divide image = Ok (mkImage (time_start image) [("ndmi", r_ndmi)]) /\
    stacked divide image =
      Ok (mkImage (time_start image)
            (bands image ++ [("ndvi", r_ndvi); ("nbr", r_nbr); ("ndmi", r_ndmi)])) /\
    forall p,
      r_ndvi p = spec_normalized_difference divide (nir p) (red p) /\
      r_nbr p = spec_normalized_difference divide (nir p) (swir1 p) /\
      r_ndmi p = spec_normalized_difference divide (nir p) (swir2 p) /\
      forall a, nir p = Some a ->
        (forall b, red p = Some b -> ~ (a + b == 0)%Q ->
                   r_ndvi p = Some ((a - b) / (a + b))%Q) /\
        (forall b, swir1 p = Some b -> ~ (a + b == 0)%Q ->
                   r_nbr p = Some ((a - b) / (a + b))%Q) /\
        (forall b, swir2 p = Some b -> ~ (a + b == 0)%Q ->
                   r_ndmi p = Some ((a - b) / (a + b))%Q).
Proof.
  intros Hdiv Hnd Hnir Hred Hs1 Hs2 F1 F2 F3.
  exists (index_raster divide nir red), (index_raster divide nir swir1),
         (index_raster divide nir swir2).
  split; [apply IndexFacts.ndvi_ok; assumption|].
  split; [apply IndexFacts.nbr_ok; assumption|].
  split; [apply IndexFacts.ndmi_ok; assumption|].
  split; [apply IndexFacts.stacked_ok; assumption|].
  intros p. rewrite !IndexFacts.nd_index.
  split; [reflexivity|]. split; [reflexivity|]. split; [reflexivity|].
  intros a Ha. rewrite Ha. unfold spec_normalized_difference.
  repeat split; intros b Hb Hnz; rewrite Hb; apply Hdiv, Hnz.
Qed.

Lemma indices_normalized_difference_witness :
  exists r_ndvi r_nbr r_ndmi,
    ndvi ee_divide (composite 0.4 0.1 0.2 0.15) = Ok (mkImage 0 [("ndvi", r_ndvi)]) /\
    nbr ee_divide (composite 0.4 0.1 0.2 0.15) = Ok (mkImage 0 [("nbr", r_nbr)]) /\
    ndmi ee_divide (composite 0.4 0.1 0.2 0.15) = Ok (mkImage 0 [("ndmi", r_ndmi)]) /\
    stacked ee_divide (composite 0.4 0.1 0.2 0.15) =
      Ok (mkImage 0
            (bands (composite 0.4 0.1 0.2 0.15) ++
             [("ndvi", r_ndvi); ("nbr", r_nbr); ("ndmi", r_ndmi)])) /\
    forall p,
      r_ndvi p = spec_normalized_difference ee_divide (const_raster 0.4 p) (const_raster 0.1 p) /\
      r_nbr p = spec_normalized_difference ee_divide (const_raster 0.4 p) (const_raster 0.2 p) /\
      r_ndmi p = spec_normalized_difference ee_divide (const_raster 0.4 p) (const_raster 0.15 p) /\
      forall a, const_raster 0.4 p = Some a ->
        (forall b, const_raster 0.1 p = Some b -> ~ (a + b == 0)%Q ->
                   r_ndvi p = Some ((a - b) / (a + b))%Q) /\
        (forall b, const_raster 0.2 p = Some b -> ~ (a + b == 0)%Q ->
                   r_nbr p = Some ((a - b) / (a + b))%Q) /\
        (forall b, const_raster 0.15 p = Some b -> ~ (a + b == 0)%Q ->
                   r_ndmi p = Some ((a - b) / (a + b))%Q).
Proof.
  apply (indices_normalized_difference ee_divide (composite 0.4 0.1 0.2 0.15)
           (const_raster 0.4) (const_raster 0.1) (const_raster 0.2) (const_raster 0.15));
    try reflexivity; try names_apart.
Defined.

(** C7, as the code has it.  The formulas have no case for a zero
    denominator and the script names no no-data value: on a composite
    that has the four bands the script computes the three indices without
    error whatever the pixel values, and at a pixel where both bands are
    valid and A + B is 0 each index is what the platform's division
    returns for A - B over that zero, masked only if the platform's
    division masks. *)
Theorem zero_denominator_is_the_platform_s
    (divide : Q -> Q -> option Q) (image : Image) (nir red swir1 swir2 : raster) :
  List.NoDup (bandNames image) ->
  band image "B8_median" = Some nir ->
  band image "B4_median" = Some red ->
  band image "B11_median" = Some swir1 ->
  band image "B12_median" = Some swir2 ->
  exists r_ndvi r_nbr r_ndmi,
    ndvi divide image = Ok (mkImage (time_start image) [("ndvi", r_ndvi)]) /\
    nbr divide image = Ok (mkImage (time_start image) [("nbr", r_nbr)]) /\
    ndmi divide image = Ok (mkImage (time_start image) [("ndmi", r_ndmi)]) /\
    forall p a, nir p = Some a ->
      (forall b, red p = Some b -> (a + b == 0)%Q ->
                 r_ndvi p = divide (a - b)%Q (a + b)%Q) /\
      (forall b, swir1 p = Some b -> (a + b == 0)%Q ->
                 r_nbr p = divide (a - b)%Q (a + b)%Q) /\
      (forall b, swir2 p = Some b -> (a + b == 0)%Q ->
                 r_ndmi p = divide (a - b)%Q (a + b)%Q).
Proof.
  intros Hnd Hnir Hred Hs1 Hs2.
  exists (index_raster divide nir red), (index_raster divide nir swir1),
         (index_raster divide nir swir2).
  split; [apply IndexFacts.ndvi_ok; assumption|].
  split; [apply IndexFacts.nbr_ok; assumption|].
  split; [apply IndexFacts.ndmi_ok; assumption|].
  intros p a Ha. rewrite !IndexFacts.nd_index, Ha. unfold spec_normalized_difference.
  repeat split; intros b Hb _; rewrite Hb; reflexivity.
Qed.

Lemma zero_denominator_is_the_platform_s_witness :
  exists r_ndvi r_nbr r_ndmi,
    ndvi ee_divide (composite 0 0 0 0) = Ok (mkImage 0 [("ndvi", r_ndvi)]) /\
    nbr ee_divide (composite 0 0 0 0) = Ok (mkImage 0 [("nbr", r_nbr)]) /\
    ndmi ee_divide (composite 0 0 0 0) = Ok (mkImage 0 [("ndmi", r_ndmi)]) /\
    forall p a, const_raster 0 p = Some a ->
      (forall b, const_raster 0 p = Some b -> (a + b == 0)%Q ->
                 r_ndvi p = ee_divide (a - b)%Q (a + b)%Q) /\
      (forall b, const_raster 0 p = Some b -> (a + b == 0)%Q ->
                 r_nbr p = ee_divide (a - b)%Q (a + b)%Q) /\
      (forall b, const_raster 0 p = Some b -> (a + b == 0)%Q ->
                 r_ndmi p = ee_divide (a - b)%Q (a + b)%Q).
Proof.
  apply (zero_denominator_is_the_platform_s ee_divide (composite 0 0 0 0)
           (const_raster 0) (const_raster 0) (const_raster 0) (const_raster 0));
    try reflexivity; names_apart.
Defined.

(** C7, as stated, fails: with the division Earth Engine documents, a
    pixel where near infrared and red are both 0 gets the ndvi value 0, a
    valid value, not a masked pixel. *)
Lemma zero_denominator_not_masked :
  ~ (forall divide image st r nir red p a b,
       stacked divide image = Ok st ->
       band st "ndvi" = Some r ->
       band image "B8_median" = Some nir ->
       band image "B4_median" = Some red ->
       nir p = Some a -> red p = Some b -> (a + b == 0)%Q ->
       r p = None).
Proof.
  intros H.
  assert (Hst : exists st, stacked ee_divide (composite 0 0 0.2 0.1) = Ok st /\
                  exists r, band st "ndvi" = Some r /\ r (0, 0)%Z = Some 0%Q).
  { eexists. split; [reflexivity|]. eexists. split; reflexivity. }
  destruct Hst as (st & Hst & r & Hr & Hv).
  specialize (H ee_divide (composite 0 0 0.2 0.1) st r (const_raster 0) (const_raster 0)
                (0, 0)%Z 0%Q 0%Q Hst Hr Logic.eq_refl Logic.eq_refl
                Logic.eq_refl Logic.eq_refl).
  rewrite Hv in H. discriminate H. reflexivity.
Qed.

(** ** The sample splitter *)

Module SplitFacts.

Lemma gen_range (seed : Z) (key : string) : (0 <= gen seed key < 1)%Q.
Proof.
  unfold gen, Qle, Qlt. simpl.
  pose proof (Z.mod_pos_bound (Z.of_nat (String.length key) * 37 + seed) 100 ltac:(lia)).
  lia.
Qed.

Lemma test_lt (f : Feature) (name : string) (c : Q) :
  EEFilter.test (EEFilter.lt name c) f = true <->
  exists v, get f name = Some v /\ (v < c)%Q.
Proof.
  simpl. destruct (get f name) as [v|]; split.
  - intros H. exists v. split; [reflexivity|].
    apply Qnot_le_lt. intros Hle. apply Qle_bool_iff in Hle.
    rewrite Hle in H. discriminate.
  - intros (v' & [= <-] & Hlt). destruct (Qle_bool c v) eqn:Hle; [|reflexivity].
    apply Qle_bool_iff in Hle. exfalso. exact (Qlt_not_le _ _ Hlt Hle).
  - discriminate.
  - intros (v' & [=] & _).
Qed.

Lemma test_gte (f : Feature) (name : string) (c v : Q) :
  get f name = Some v ->
  EEFilter.test (EEFilter.gte name c) f = true <-> (c <= v)%Q.
Proof.
  intros Hv. simpl. rewrite Hv, negb_involutive. apply Qle_bool_iff.
Qed.

Lemma test_not_null (f : Feature) (name : string) :
  EEFilter.test (EEFilter.neq name None) f = true <-> get f name <> None.
Proof.
  simpl. destruct (get f name); simpl; split; congruence.
Qed.

Lemma filter_split {A} (t : A -> bool) (l : list A) :
  Permutation l (List.filter t l ++ List.filter (fun x => negb (t x)) l).
Proof.
  induction l as [|x l IH]; simpl; [constructor|].
  destruct (t x); simpl.
  - constructor. exact IH.
  - apply Permutation_cons_app. exact IH.
Qed.

Lemma get_set_same (f : Feature) (name : string) (v : Q) :
  get (set f name v) name = Some v.
Proof. unfold get, set. simpl. apply lookup_insert_eq. Qed.

Lemma get_set_other (f : Feature) (name other : string) (v : Q) :
  name <> other -> get (set f name v) other = get f other.
Proof. intros H. unfold get, set. simpl. apply lookup_insert_ne, H. Qed.

Lemma filter_perm {A} (t : A -> bool) (l l' : list A) :
  Permutation l l' -> Permutation (List.filter t l) (List.filter t l').
Proof.
  induction 1 as [|x l l' _ IH|x y l|l l' l'' _ IH1 _ IH2]; simpl.
  - constructor.
  - destruct (t x); [constructor|]; exact IH.
  - destruct (t x), (t y); try reflexivity. apply perm_swap.
  - etransitivity; eassumption.
Qed.

(** The split does not depend on the order of the table: a sample falls
    on the same side wherever it stands. *)
Lemma split_order_independent (uniform : Z -> string -> Q) (s1 s2 : FeatureCollection) :
  Permutation s1 s2 ->
  Permutation (trainingSamples uniform s1) (trainingSamples uniform s2) /\
  Permutation (testingSamples uniform s1) (testingSamples uniform s2).
Proof.
  intros H.
  assert (Hd : Permutation (withRandom uniform s1) (withRandom uniform s2)).
  { unfold withRandom, EEFeatureCollection.randomColumn, validFeatures,
      EEFeatureCollection.filter.
    apply Permutation_map, filter_perm, H. }
  unfold trainingSamples, testingSamples, EEFeatureCollection.filter.
  split; apply filter_perm, Hd.
Qed.

End SplitFacts.

(** C2.  The splitter keeps exactly the samples whose rh95 is not null,
    gives each of them under [random] the generator's value for the
    default seed and the sample's own index, a value in [0, 1), and splits
    them: a sample is in Training exactly when its value is below 0.7 and
    in Testing exactly when it is 0.7 or more; no sample is in both; the
    two together are the samples with a height, each as often as it
    occurs; and no sample of either has a null rh95. *)
Theorem split_partition (uniform : Z -> string -> Q) (S2samples : FeatureCollection) :
  (forall seed key, (0 <= uniform seed key < 1)%Q) ->
  let valid := validFeatures S2samples in
  let drawn := withRandom uniform S2samples in
  let train := trainingSamples uniform S2samples in
  let test := testingSamples uniform S2samples in
  (forall f, In f valid <-> In f S2samples /\ get f "rh95" <> None) /\
  drawn = map (fun f => set f "random"
                 (uniform EEFeatureCollection.default_seed (sys_index f))) valid /\
  (forall f, In f drawn ->
     get f "rh95" <> None /\
     exists v, get f "random" = Some v /\ (0 <= v < 1)%Q /\
               (In f train <-> (v < 0.7)%Q) /\
               (In f test <-> (0.7 <= v)%Q)) /\
  (forall f, In f train -> In f drawn) /\
  (forall f, In f test -> In f drawn) /\
  (forall f, ~ (In f train /\ In f test)) /\
  Permutation drawn (train ++ test) /\
  (forall f, In f train \/ In f test -> get f "rh95" <> None).
Proof.
  intros Hrange valid drawn train test.
  assert (Hvalid : forall f, In f valid <-> In f S2samples /\ get f "rh95" <> None).
  { intros f. unfold valid, validFeatures, EEFeatureCollection.filter.
    rewrite filter_In, SplitFacts.test_not_null. reflexivity. }
  assert (Hdrawn : forall f, In f drawn ->
            get f "rh95" <> None /\
            exists v, get f "random" = Some v /\ (0 <= v < 1)%Q).
  { intros f Hf. unfold drawn, withRandom, EEFeatureCollection.randomColumn in Hf.
    apply in_map_iff in Hf as (g & <- & Hg). apply Hvalid in Hg as [_ Hg]. split.
    - rewrite SplitFacts.get_set_other by discriminate. exact Hg.
    - eexists. split; [apply SplitFacts.get_set_same | apply Hrange]. }
  assert (Htrain : forall f, In f train <->
            In f drawn /\ exists v, get f "random" = Some v /\ (v < 0.7)%Q).
  { intros f. unfold train, trainingSamples, EEFeatureCollection.filter.
    rewrite filter_In, SplitFacts.test_lt. reflexivity. }
  assert (Htest : forall f v, get f "random" = Some v ->
            (In f test <-> In f drawn /\ (0.7 <= v)%Q)).
  { intros f v Hv. unfold test, testingSamples, EEFeatureCollection.filter.
    rewrite filter_In, (SplitFacts.test_gte f "random" 0.7 v Hv). reflexivity. }
  split; [exact Hvalid|]. split; [reflexivity|]. split.
  { intros f Hf. destruct (Hdrawn f Hf) as (Hh & v & Hv & Hr).
    split; [exact Hh|]. exists v. split; [exact Hv|]. split; [exact Hr|]. split.
    - rewrite Htrain. split.
      + intros (_ & v' & Hv' & Hlt). rewrite Hv in Hv'. injection Hv' as <-. exact Hlt.
      + intros Hlt. split; [exact Hf|]. exists v. split; [exact Hv | exact Hlt].
    - rewrite (Htest f v Hv). tauto. }
  split; [intros f Hf; apply Htrain in Hf; tauto|].
  assert (Htd : forall f, In f test -> In f drawn).
  { intros f Hf. unfold test, testingSamples, EEFeatureCollection.filter in Hf.
    apply filter_In in Hf. tauto. }
  split; [exact Htd|]. split.
  { intros f [Ha Hb]. apply Htrain in Ha as (Hd & v & Hv & Hlt).
    apply (Htest f v Hv) in Hb as [_ Hle]. exact (Qlt_not_le _ _ Hlt Hle). }
  split.
  { unfold train, test, trainingSamples, testingSamples, EEFeatureCollection.filter.
    apply SplitFacts.filter_split. }
  intros f [Hf|Hf]; [apply Htrain in Hf as [Hf _] | apply Htd in Hf];
    apply Hdrawn in Hf; tauto.
Qed.

Lemma split_partition_witness :
  let valid := validFeatures four_samples in
  let drawn := withRandom gen four_samples in
  let train := trainingSamples gen four_samples in
  let test := testingSamples gen four_samples in
  (forall f, In f valid <-> In f four_samples /\ get f "rh95" <> None) /\
  drawn = map (fun f => set f "random"
                 (gen EEFeatureCollection.default_seed (sys_index f))) valid /\
  (forall f, In f drawn ->
     get f "rh95" <> None /\
     exists v, get f "random" = Some v /\ (0 <= v < 1)%Q /\
               (In f train <-> (v < 0.7)%Q) /\
               (In f test <-> (0.7 <= v)%Q)) /\
  (forall f, In f train -> In f drawn) /\
  (forall f, In f test -> In f drawn) /\
  (forall f, ~ (In f train /\ In f test)) /\
  Permutation drawn (train ++ test) /\
  (forall f, In f train \/ In f test -> get f "rh95" <> None).
Proof.
  apply (split_partition gen four_samples). exact SplitFacts.gen_range.
Defined.

(** C6.  Two runs of the splitter over the same sample table give the
    same Training table and the same Testing table.  A run reads the
    platform's generator at one seed only, the fixed default 0, the script
    passing none, and only at the indices of the samples that have a
    height: two runs whose generators agree there, whatever they answer
    at any other seed or index, draw the same [random] column and cut the
    table into the same two tables, row for row and value for value. *)
Theorem split_reproducible (first second : Z -> string -> Q) (S2samples : FeatureCollection) :
  (forall f, In f S2samples -> get f "rh95" <> None ->
     first 0%Z (sys_index f) = second 0%Z (sys_index f)) ->
  withRandom first S2samples = withRandom second S2samples /\
  trainingSamples first S2samples = trainingSamples second S2samples /\
  testingSamples first S2samples = testingSamples second S2samples.
Proof.
  intros Hagree.
  assert (Hdrawn : withRandom first S2samples = withRandom second S2samples).
  { unfold withRandom, EEFeatureCollection.randomColumn.
    apply map_ext_in. intros f Hf.
    unfold validFeatures, EEFeatureCollection.filter in Hf.
    apply filter_In in Hf as [Hin Hh]. apply SplitFacts.test_not_null in Hh.
    unfold EEFeatureCollection.default_seed.
    rewrite (Hagree f Hin Hh). reflexivity. }
  unfold trainingSamples, testingSamples. rewrite Hdrawn.
  repeat split; reflexivity.
Qed.

Lemma split_reproducible_witness :
  withRandom gen four_samples = withRandom gen_at_0 four_samples /\
  trainingSamples gen four_samples = trainingSamples gen_at_0 four_samples /\
  testingSamples gen four_samples = testingSamples gen_at_0 four_samples.
Proof.
  apply (split_reproducible gen gen_at_0 four_samples).
  intros f _ _. reflexivity.
Defined.

(** ** The regressor *)

(** C3.  Whenever the extended raster can be built, the model the script
    trains is a random forest of 74 trees with minimum leaf population 3,
    bag fraction 1 and seed 123, the two remaining settings left at the
    platform's defaults, in regression mode; it is trained on the
    Training samples re-sampled from the extended raster, with the eight
    spectral bands followed by ndvi, nbr and ndmi, eleven distinct names,
    as inputs and rh95 as the target. *)
Theorem RFmodel_configuration
    (divide : Q -> Q -> option Q) (uniform : Z -> string -> Q)
    (image st : Image) (S2samples : FeatureCollection) :
  stacked divide image = Ok st ->
  exists m t,
    RFmodel divide uniform image S2samples = Ok m /\
    numberOfTrees m = 74%Z /\
    minLeafPopulation m = 3%Z /\
    bagFraction m = 1%Q /\
    seed m = 123%Z /\
    variablesPerSplit m = None /\
    maxNodes m = None /\
    outputMode m = REGRESSION /\
    trainedOn m = Some t /\
    features t = sampleRegions st (trainingSamples uniform S2samples) ["rh95"] /\
    inputProperties t =
      ["B2_median"; "B3_median"; "B4_median"; "B5_median"; "B7_median";
       "B8_median"; "B11_median"; "B12_median"] ++ ["ndvi"; "nbr"; "ndmi"] /\
    List.length (inputProperties t) = 11%nat /\
    List.NoDup (inputProperties t) /\
    classProperty t = "rh95".
Proof.
  intros Hst. unfold RFmodel, training. rewrite Hst. cbn [rbind].
  eexists. eexists. split; [reflexivity|]. cbn.
  repeat (split; [reflexivity|]).
  split; [names_apart | reflexivity].
Qed.

Lemma RFmodel_configuration_witness :
  exists st,
    stacked ee_divide (composite 0.4 0.1 0.2 0.15) = Ok st /\
    exists m t,
      RFmodel ee_divide gen (composite 0.4 0.1 0.2 0.15) four_samples = Ok m /\
      numberOfTrees m = 74%Z /\
      minLeafPopulation m = 3%Z /\
      bagFraction m = 1%Q /\
      seed m = 123%Z /\
      variablesPerSplit m = None /\
      maxNodes m = None /\
      outputMode m = REGRESSION /\
      trainedOn m = Some t /\
      features t = sampleRegions st (trainingSamples gen four_samples) ["rh95"] /\
      inputProperties t =
        ["B2_median"; "B3_median"; "B4_median"; "B5_median"; "B7_median";
         "B8_median"; "B11_median"; "B12_median"] ++ ["ndvi"; "nbr"; "ndmi"] /\
      List.length (inputProperties t) = 11%nat /\
      List.NoDup (inputProperties t) /\
      classProperty t = "rh95".
Proof.
  eexists. split; [reflexivity|].
  apply (RFmodel_configuration ee_divide gen (composite 0.4 0.1 0.2 0.15)).
  reflexivity.
Defined.

(** ** The evaluator *)

Module EvalFacts.

Lemma paired_rows (rows : FeatureCollection) (pairs : list (Q * Q)) :
  Forall2 carries rows pairs ->
  paired rows = map (fun po => (snd po, fst po)) pairs.
Proof.
  unfold paired, EEList.zip, EEFeatureCollection.aggregate_array.
  induction 1 as [|f po rows pairs [Hp Ho] _ IH]; [reflexivity|].
  cbn [omap list_omap]. rewrite Hp, Ho. cbn [combine map]. f_equal. exact IH.
Qed.

Lemma reduce_mean_some (l : list Q) :
  l <> [] -> EEList.reduce_mean l = Some (spec_mean l).
Proof. destruct l; [congruence | reflexivity]. Qed.

Lemma metrics_of_nothing (sqrt : Q -> Q) :
  rmseVal sqrt [] = Err "Parameter 'input' is required and may not be null." /\
  maeVal [] = None.
Proof. split; reflexivity. Qed.

End EvalFacts.

(** C5.  On a classified testing table whose rows carry the given
    (prediction, observation) pairs, one pair per row and at least one
    row, the evaluator's RMSE is the square root of the mean of the
    squared differences and its MAE is the mean of the absolute
    differences, both over exactly those pairs. *)
Theorem evaluator_metrics (sqrt : Q -> Q) (rows : FeatureCollection) (pairs : list (Q * Q)) :
  Forall2 carries rows pairs ->
  pairs <> [] ->
  rmseVal sqrt rows = Ok (spec_rmse sqrt pairs) /\
  maeVal rows = Some (spec_mae pairs).
Proof.
  intros Hrows Hne.
  unfold rmseVal, maeVal, rmse, mae. rewrite (EvalFacts.paired_rows _ _ Hrows), !map_map.
  cbn [fst snd].
  rewrite !EvalFacts.reduce_mean_some by (destruct pairs; [congruence | discriminate]).
  split; reflexivity.
Qed.

Lemma evaluator_metrics_witness :
  rmseVal heron_sqrt three_rows =
    Ok (spec_rmse heron_sqrt [(12, 10); (18, 20); (33, 30)]%Q) /\
  maeVal three_rows = Some (spec_mae [(12, 10); (18, 20); (33, 30)]%Q).
Proof.
  apply (evaluator_metrics heron_sqrt three_rows).
  - repeat constructor.
  - discriminate.
Defined.

(** The synthetic check of the specification: MAE 7/3, mean square 17/3. *)
Example synthetic_metrics :
  (spec_mae [(12, 10); (18, 20); (33, 30)] == 7 # 3)%Q /\
  (spec_mean (map (fun po => ((fst po - snd po) ^ 2)%Q) [(12, 10); (18, 20); (33, 30)])
   == 17 # 3)%Q.
Proof. split; reflexivity. Qed.

Module PairFacts.

Lemma sample_at_valid (im : Image) (p : pixel) :
  is_Some (sample_at im p) <-> forall b, In b (bands im) -> snd b p <> None.
Proof.
  unfold sample_at. rewrite mapM_is_Some, Forall_forall. split.
  - intros H b Hb. apply list_elem_of_In in Hb. specialize (H b Hb).
    simpl in H. destruct (snd b p); [discriminate | destruct H; discriminate].
  - intros H b Hb. apply list_elem_of_In in Hb. specialize (H b Hb).
    simpl. destruct (snd b p); [eexists; reflexivity | contradiction].
Qed.

Lemma sample_region_kept (im : Image) (names : list string) (f : Feature) :
  is_Some (sample_region im names f) <->
  exists p, geometry f = Some p /\ forall b, In b (bands im) -> snd b p <> None.
Proof.
  unfold sample_region. destruct (geometry f) as [p|]; simpl.
  - split.
    + intros [r Hr]. exists p. split; [reflexivity|]. apply sample_at_valid.
      destruct (sample_at im p); [eexists; reflexivity | discriminate].
    + intros (p' & [= <-] & Hall). apply sample_at_valid in Hall as [vs Hvs].
      rewrite Hvs. eexists. reflexivity.
  - split; [intros [r Hr]; discriminate | intros (p & Hp & _); discriminate].
Qed.

Lemma sample_region_height (im : Image) (f r : Feature) :
  get f "rh95" <> None ->
  sample_region im ["rh95"] f = Some r ->
  get r "rh95" <> None.
Proof.
  intros Hh. unfold sample_region.
  destruct (geometry f) as [p|]; simpl; [|discriminate].
  destruct (sample_at im p) as [vs|]; simpl; [|discriminate].
  intros [= <-]. unfold get at 1. simpl.
  apply not_eq_None_Some, lookup_union_is_Some. right.
  unfold copy_properties. simpl. destruct (get f "rh95") as [h|]; [|contradiction].
  simpl. rewrite lookup_insert_eq. eexists. reflexivity.
Qed.

Lemma testing_has_height (uniform : Z -> string -> Q) (S2samples : FeatureCollection) (f : Feature) :
  In f (testingSamples uniform S2samples) -> get f "rh95" <> None.
Proof.
  unfold testingSamples, EEFeatureCollection.filter, withRandom,
    EEFeatureCollection.randomColumn, validFeatures.
  intros Hf. apply filter_In in Hf as [Hf _].
  apply in_map_iff in Hf as (g & <- & Hg).
  apply filter_In in Hg as [_ Hg]. apply SplitFacts.test_not_null in Hg.
  rewrite SplitFacts.get_set_other by discriminate. exact Hg.
Qed.

Lemma omap_in {A B} (f : A -> option B) (l : list A) (b : B) :
  In b (omap f l) -> exists a, In a l /\ f a = Some b.
Proof.
  induction l as [|a l IH]; simpl; [intros []|].
  destruct (f a) as [b'|] eqn:Hfa.
  - intros [->|Hin].
    + exists a. split; [left; reflexivity | exact Hfa].
    + destruct (IH Hin) as (a' & Ha' & Hf). exists a'. split; [right; exact Ha' | exact Hf].
  - intros Hin. destruct (IH Hin) as (a' & Ha' & Hf).
    exists a'. split; [right; exact Ha' | exact Hf].
Qed.

Lemma classified_rows (predict : Classifier -> list Q -> Q) (m : Classifier)
    (inputs : list string) (rows tp : FeatureCollection) :
  rmapM (EEClassifier.classify_feature predict m inputs) rows = Ok tp ->
  (forall r, In r rows -> get r "rh95" <> None) ->
  map sys_index tp = map sys_index rows /\
  exists pairs, Forall2 carries tp pairs.
Proof.
  intros H. apply rmapM_ok in H.
  induction H as [|r f rows tp Hrf _ IH]; intros Hh.
  - split; [reflexivity|]. exists []. constructor.
  - destruct IH as (Hidx & pairs & Hpairs); [intros x Hx; apply Hh; right; exact Hx|].
    unfold EEClassifier.classify_feature in Hrf.
    destruct (mapM (get r) inputs) as [vals|]; [|discriminate].
    injection Hrf as <-.
    destruct (get r "rh95") as [o|] eqn:Ho; [|exfalso; apply (Hh r); [left; reflexivity | exact Ho]].
    split; [simpl; f_equal; exact Hidx|].
    exists ((predict m vals, o) :: pairs). constructor; [|exact Hpairs].
    split; simpl.
    + apply SplitFacts.get_set_same.
    + rewrite SplitFacts.get_set_other by discriminate. exact Ho.
Qed.

Lemma sample_at_names (im : Image) (p : pixel) (vs : list (string * Q)) :
  sample_at im p = Some vs -> map fst vs = bandNames im.
Proof.
  unfold sample_at, bandNames. revert vs.
  induction (bands im) as [|b bs IH]; intros vs; cbn.
  - intros [= <-]. reflexivity.
  - destruct (snd b p) as [v|]; cbn; [|discriminate].
    destruct (mapM _ bs) as [vs'|]; cbn; [|discriminate].
    intros [= <-]. cbn. f_equal. apply IH. reflexivity.
Qed.

Lemma sampled_has_bands (im : Image) (names : list string) (f r : Feature) (n : string) :
  sample_region im names f = Some r ->
  In n (bandNames im) ->
  is_Some (get r n).
Proof.
  unfold sample_region. destruct (geometry f) as [p|]; cbn; [|discriminate].
  destruct (sample_at im p) as [vs|] eqn:Hvs; cbn; [|discriminate].
  intros [= <-] Hn. unfold get. cbn.
  apply lookup_union_is_Some. left.
  apply sample_at_names in Hvs. rewrite <- Hvs in Hn.
  apply not_eq_None_Some. intros Hnone.
  apply not_elem_of_list_to_map in Hnone. apply Hnone, list_elem_of_In, Hn.
Qed.

(** When the extended raster has the eleven input bands, the testing
    table is classified without an error. *)
Lemma testPred_total
    (divide : Q -> Q -> option Q) (uniform : Z -> string -> Q)
    (predict : Classifier -> list Q -> Q)
    (image st : Image) (S2samples : FeatureCollection) :
  stacked divide image = Ok st ->
  (forall n, In n inputBands -> In n (bandNames st)) ->
  exists tp, testPred divide uniform predict image S2samples = Ok tp.
Proof.
  intros Hst Hbands. unfold testPred, testing, RFmodel, training. rewrite Hst.
  cbn [rbind]. unfold EEClassifier.classify. cbn [trainedOn EEClassifier.train inputProperties].
  apply rmapM_exists. intros r Hr. unfold sampleRegions in Hr.
  apply omap_in in Hr as (f & _ & Hr).
  unfold EEClassifier.classify_feature.
  destruct (mapM (get r) inputBands) as [vals|] eqn:Hvals; [eexists; reflexivity|].
  exfalso. apply eq_None_not_Some in Hvals. apply Hvals, mapM_is_Some, Forall_forall.
  intros n Hn. apply list_elem_of_In in Hn.
  exact (sampled_has_bands st ["rh95"] f r n Hr (Hbands n Hn)).
Qed.

End PairFacts.

(** C8, as the code has it.  The evaluator pairs the i-th non-null rh95
    of the classified testing table with its i-th non-null classification
    and has no report for a missing value.  In the script's own run every
    row of that table carries both, so each pair is a row's own and there
    are as many pairs as rows; but the table holds only the Testing
    samples that have a point on a pixel where every band of the extended
    raster is valid: sampleRegions drops the others without a report, and
    the metrics are computed over the rest. *)
Theorem evaluator_pairing
    (divide : Q -> Q -> option Q) (uniform : Z -> string -> Q)
    (predict : Classifier -> list Q -> Q)
    (image st : Image) (S2samples tp : FeatureCollection) :
  stacked divide image = Ok st ->
  testPred divide uniform predict image S2samples = Ok tp ->
  let tests := testingSamples uniform S2samples in
  map sys_index tp = map sys_index (omap (sample_region st ["rh95"]) tests) /\
  (forall f, In f tests ->
     (is_Some (sample_region st ["rh95"] f) <->
      exists p, geometry f = Some p /\ forall b, In b (bands st) -> snd b p <> None)) /\
  (exists pairs,
     Forall2 carries tp pairs /\
     paired tp = map (fun po => (snd po, fst po)) pairs) /\
  List.length (paired tp) = List.length tp /\
  (List.length tp <= List.length tests)%nat /\
  (tp <> [] -> exists v, maeVal tp = Some v).
Proof.
  intros Hst Htp tests.
  unfold testPred, testing, RFmodel, training in Htp. rewrite Hst in Htp.
  cbn [rbind] in Htp. unfold EEClassifier.classify in Htp. cbn in Htp.
  fold tests in Htp.
  apply PairFacts.classified_rows in Htp as (Hidx & pairs & Hpairs).
  2:{ intros r Hr. unfold sampleRegions in Hr.
      apply PairFacts.omap_in in Hr as (f & Hf & Hr).
      eapply PairFacts.sample_region_height; [|exact Hr].
      eapply PairFacts.testing_has_height, Hf. }
  pose proof (EvalFacts.paired_rows _ _ Hpairs) as Hpaired.
  assert (Hlen : List.length pairs = List.length tp)
    by (symmetry; eapply Forall2_length, Hpairs).
  split; [exact Hidx|].
  split; [intros f _; apply PairFacts.sample_region_kept|].
  split; [exists pairs; split; assumption|].
  split; [rewrite Hpaired, length_map; exact Hlen|].
  split.
  - apply (f_equal (@List.length string)) in Hidx. rewrite !length_map in Hidx.
    rewrite Hidx. clear. induction tests as [|f l IH]; simpl; [lia|].
    destruct (sample_region st ["rh95"] f); simpl; lia.
  - intros Hne. unfold maeVal, mae. rewrite Hpaired, map_map.
    rewrite EvalFacts.reduce_mean_some; [eexists; reflexivity|].
    destruct pairs; [destruct tp; [congruence | discriminate Hlen] | discriminate].
Qed.

Lemma evaluator_pairing_witness :
  exists st tp,
    stacked ee_divide holed_composite = Ok st /\
    testPred ee_divide gen flat_forest holed_composite five_samples = Ok tp /\
    let tests := testingSamples gen five_samples in
    map sys_index tp = map sys_index (omap (sample_region st ["rh95"]) tests) /\
    (forall f, In f tests ->
       (is_Some (sample_region st ["rh95"] f) <->
        exists p, geometry f = Some p /\ forall b, In b (bands st) -> snd b p <> None)) /\
    (exists pairs,
       Forall2 carries tp pairs /\
       paired tp = map (fun po => (snd po, fst po)) pairs) /\
    List.length (paired tp) = List.length tp /\
    (List.length tp <= List.length tests)%nat /\
    (tp <> [] -> exists v, maeVal tp = Some v).
Proof.
  eexists. eexists. split; [reflexivity|]. split; [reflexivity|].
  apply (evaluator_pairing ee_divide gen flat_forest holed_composite); reflexivity.
Defined.

(** C8, as stated, fails: of two Testing samples one lies where the red
    band is masked; the evaluator reports an MAE, computed over one pair. *)
Lemma evaluator_drops_silently :
  ~ (forall divide uniform predict image S2samples tp v,
       testPred divide uniform predict image S2samples = Ok tp ->
       maeVal tp = Some v ->
       List.length (paired tp) = List.length (testingSamples uniform S2samples)).
Proof.
  intros H.
  assert (Hrun : exists tp,
            testPred ee_divide gen flat_forest holed_composite five_samples = Ok tp /\
            maeVal tp = Some 7%Q /\
            List.length (paired tp) = 1%nat).
  { eexists. split; [reflexivity|]. split; reflexivity. }
  destruct Hrun as (tp & Htp & Hmae & Hlen).
  specialize (H _ _ _ _ _ _ _ Htp Hmae). rewrite Hlen in H. discriminate H.
Qed.

(** The same at the level of the table: a row without a classification
    shifts the pairing, and a number is still reported. *)
Example positional_pairing :
  paired [row "0_0" 10 12;
          mkFeature "1_0" None (<["rh95" := 20%Q]> ∅);
          row "2_0" 30 33]
  = [(10, 12); (20, 33)]%Q.
Proof. reflexivity. Qed.

(** ** The run on an empty sample table *)

Module RunFacts.

Lemma nothing_to_split (uniform : Z -> string -> Q) (S2samples : FeatureCollection) :
  validFeatures S2samples = [] ->
  trainingSamples uniform S2samples = [] /\ testingSamples uniform S2samples = [].
Proof.
  intros H. unfold trainingSamples, testingSamples, withRandom. rewrite H.
  split; reflexivity.
Qed.

End RunFacts.

(** C9, as the code has it.  The script has no test for an empty sample
    table.  When no sample is left after the null filter and the extended
    raster can be built, the script prints both counts as 0 and issues the
    exports of the two empty tables, none of which is a failure, and the
    forest it describes is to be trained on a table of no rows.  The first
    diagnostic is the platform's own, at the fit: on a platform that
    cannot fit a forest on no rows, the error of that fit is what the
    prints of the description, the importance, the RMSE and the MAE and
    the two last exports carry, and all ten requests are issued, in the
    order of every other run. *)
Theorem script_on_no_samples
    (divide : Q -> Q -> option Q) (uniform : Z -> string -> Q)
    (predict : Classifier -> list Q -> Q) (fit : Classifier -> result unit)
    (sqrt : Q -> Q)
    (ROI : Geometry) (image st : Image) (S2samples : FeatureCollection) (msg : string) :
  stacked divide image = Ok st ->
  validFeatures S2samples = [] ->
  (forall m t, trainedOn m = Some t -> features t = [] -> fit m = Err msg) ->
  exists m t,
    RFmodel divide uniform image S2samples = Ok m /\
    trainedOn m = Some t /\
    features t = [] /\
    script divide uniform predict fit sqrt ROI image S2samples =
    [ Print "Training samples count:" (PCount 0);
      Print "Testing samples count:" (PCount 0);
      ExportTableToDrive (Ok []) "GEDI_training_samples_NY_2019" "GEE_outputs"
        "gedi_training_samples_NY_2019" "CSV";
      ExportTableToDrive (Ok []) "GEDI_testing_samples_NY_2019" "GEE_outputs"
        "gedi_testing_samples_NY_2019" "CSV";
      Print "Random Forest Info:" (PExplain (Err msg));
      Print "Feature Importance:" (PImportance (Err msg));
      Print "Testing RMSE (m):" (PNumber (Err msg));
      Print "Testing MAE (m):" (PNumber (Err msg));
      ExportImageToDrive (Err msg)
        "CHM_RF_NY_2019" "GEE_outputs" "CHM_RF_NY_2019" 10 (10 ^ 13) "EPSG:5070" ROI;
      ExportTableToDrive (Err msg)
        "S2CHM_RF_NY_2019_eval" "GEE_outputs" "S2CHM_RF_NY_2019_eval" "CSV" ] /\
    before_fitting (script divide uniform predict fit sqrt ROI image S2samples) =
    [ Print "Training samples count:" (PCount 0);
      Print "Testing samples count:" (PCount 0);
      ExportTableToDrive (Ok []) "GEDI_training_samples_NY_2019" "GEE_outputs"
        "gedi_training_samples_NY_2019" "CSV";
      ExportTableToDrive (Ok []) "GEDI_testing_samples_NY_2019" "GEE_outputs"
        "gedi_testing_samples_NY_2019" "CSV" ].
Proof.
  intros Hst Hvalid Hfit.
  destruct (RunFacts.nothing_to_split uniform _ Hvalid) as [Htr Hte].
  assert (Hm : exists m t, RFmodel divide uniform image S2samples = Ok m /\
                 trainedOn m = Some t /\ features t = []).
  { unfold RFmodel, training. rewrite Hst, Htr. cbn [rbind].
    eexists. eexists. split; [reflexivity|]. cbn. split; reflexivity. }
  destruct Hm as (m & t & Hm & Ht & Hf).
  exists m, t. split; [exact Hm|]. split; [exact Ht|]. split; [exact Hf|].
  assert (Hinfo : rfInfo divide uniform fit image S2samples = Err msg).
  { unfold rfInfo, EEClassifier.explain. rewrite Hm. cbn [rbind].
    rewrite Ht, (Hfit m t Ht Hf). reflexivity. }
  unfold script. rewrite Hinfo, Htr, Hte. split; reflexivity.
Qed.

Lemma script_on_no_samples_witness :
  exists m t,
    RFmodel ee_divide gen (composite 0.4 0.1 0.2 0.15) [sample "bb" (1, 0)%Z None] = Ok m /\
    trainedOn m = Some t /\
    features t = [] /\
    script ee_divide gen flat_forest fit_some_rows heron_sqrt west_of_10
      (composite 0.4 0.1 0.2 0.15) [sample "bb" (1, 0)%Z None] =
    [ Print "Training samples count:" (PCount 0);
      Print "Testing samples count:" (PCount 0);
      ExportTableToDrive (Ok []) "GEDI_training_samples_NY_2019" "GEE_outputs"
        "gedi_training_samples_NY_2019" "CSV";
      ExportTableToDrive (Ok []) "GEDI_testing_samples_NY_2019" "GEE_outputs"
        "gedi_testing_samples_NY_2019" "CSV";
      Print "Random Forest Info:"
        (PExplain (Err "No data was found in classifier training input."));
      Print "Feature Importance:"
        (PImportance (Err "No data was found in classifier training input."));
      Print "Testing RMSE (m):"
        (PNumber (Err "No data was found in classifier training input."));
      Print "Testing MAE (m):"
        (PNumber (Err "No data was found in classifier training input."));
      ExportImageToDrive (Err "No data was found in classifier training input.")
        "CHM_RF_NY_2019" "GEE_outputs" "CHM_RF_NY_2019" 10 (10 ^ 13) "EPSG:5070" west_of_10;
      ExportTableToDrive (Err "No data was found in classifier training input.")
        "S2CHM_RF_NY_2019_eval" "GEE_outputs" "S2CHM_RF_NY_2019_eval" "CSV" ] /\
    before_fitting
      (script ee_divide gen flat_forest fit_some_rows heron_sqrt west_of_10
         (composite 0.4 0.1 0.2 0.15) [sample "bb" (1, 0)%Z None]) =
    [ Print "Training samples count:" (PCount 0);
      Print "Testing samples count:" (PCount 0);
      ExportTableToDrive (Ok []) "GEDI_training_samples_NY_2019" "GEE_outputs"
        "gedi_training_samples_NY_2019" "CSV";
      ExportTableToDrive (Ok []) "GEDI_testing_samples_NY_2019" "GEE_outputs"
        "gedi_testing_samples_NY_2019" "CSV" ].
Proof.
  eapply (script_on_no_samples ee_divide gen flat_forest fit_some_rows heron_sqrt
            west_of_10 (composite 0.4 0.1 0.2 0.15)).
  - reflexivity.
  - reflexivity.
  - intros m t Ht Hf. unfold fit_some_rows. rewrite Ht, Hf. reflexivity.
Defined.

(** C9, as stated, fails: with a sample table whose only row has no
    height, nothing the run issues before it asks for the forest is a
    failure, and the forest is asked for. *)
Lemma script_reports_nothing_before_the_fit :
  ~ (forall divide uniform predict fit sqrt ROI image S2samples,
       validFeatures S2samples = [] ->
       let run := script divide uniform predict fit sqrt ROI image S2samples in
       existsb reports_failure (before_fitting run) = true \/
       existsb asks_for_the_forest run = false).
Proof.
  intros H.
  destruct (H ee_divide gen flat_forest fit_some_rows heron_sqrt west_of_10
              (composite 0.4 0.1 0.2 0.15) [sample "bb" (1, 0)%Z None]
              Logic.eq_refl) as [Hr | Hr];
    vm_compute in Hr; discriminate Hr.
Qed.

(** ** Worked runs on the fixtures *)

(** The date window: its two bounds, 122 days apart. *)
Example window_of_the_filter :
  EEDate.parse_date "2019-06-01" = Ok 1559347200000%Z /\
  EEDate.parse_date "2019-10-01" = Ok 1569888000000%Z /\
  (1569888000000 - 1559347200000 = 122 * EEDate.millis_per_day)%Z.
Proof. repeat split; reflexivity. Qed.

(** Three monthly images: a good one in July, one in July whose shots
    fail the quality flag, and a good one dated on the end of the window.
    The last is filtered out; the second stays in the collection, fully
    masked; the first keeps rh50 and rh95 and the coordinates inside the
    region, and nothing outside it. *)
Example gedi_on_three_images :
  match gedi west_of_10
          [shot july_2019 1 0; shot july_2019 0 0; shot 1569888000000 1 0] with
  | Ok out =>
      map (fun o => (time_start o,
                     map (fun b => (fst b, snd b (0, 0)%Z, snd b (10, 0)%Z)) (bands o)))
          out
      = [(july_2019,
          [("rh50", Some 5%Q, None); ("rh95", Some 20%Q, None);
           ("lat_highestreturn", Some 42%Q, None);
           ("lon_highestreturn", Some (-75)%Q, None)]);
         (july_2019,
          [("rh50", None, None); ("rh95", None, None);
           ("lat_highestreturn", None, None);
           ("lon_highestreturn", None, None)])]
  | Err _ => False
  end.
Proof. reflexivity. Qed.

(** The three indices on a pixel with B8 = 0.4, B4 = 0.1, B11 = 0.2 and
    B12 = 0.15. *)
Example indices_on_a_pixel :
  match stacked ee_divide (composite 0.4 0.1 0.2 0.15) with
  | Ok st =>
      bandNames st =
        ["B2_median"; "B3_median"; "B4_median"; "B5_median"; "B7_median";
         "B8_median"; "B11_median"; "B12_median"; "ndvi"; "nbr"; "ndmi"] /\
      match band st "ndvi", band st "nbr", band st "ndmi" with
      | Some a, Some b, Some c =>
          match a (0, 0)%Z, b (0, 0)%Z, c (0, 0)%Z with
          | Some x, Some y, Some z =>
              (x == 3 # 5)%Q /\ (y == 1 # 3)%Q /\ (z == 5 # 11)%Q
          | _, _, _ => False
          end
      | _, _, _ => False
      end
  | Err _ => False
  end.
Proof. repeat split; reflexivity. Qed.

(** The split of the four samples: the one without a height is gone, two
    draw below 0.7 and one draws above. *)
Example split_of_four_samples :
  map sys_index (validFeatures four_samples) = ["a"; "ccc"; "dd"] /\
  map (fun f => get f "random") (withRandom gen four_samples)
    = [Some 0.37%Q; Some 0.11%Q; Some 0.74%Q] /\
  map sys_index (trainingSamples gen four_samples) = ["a"; "ccc"] /\
  map sys_index (testingSamples gen four_samples) = ["dd"].
Proof. repeat split; reflexivity. Qed.

(** The split does read the generator at seed 0: a generator that
    answers at seed 0 what [gen] answers at seed 50 moves the first
    sample to the other side, while the answers at seed 50 themselves
    are never read. *)
Example split_reads_seed_0 :
  map sys_index (trainingSamples (fun seed => gen (seed + 50)) four_samples) = ["ccc"; "dd"] /\
  map sys_index (testingSamples (fun seed => gen (seed + 50)) four_samples) = ["a"] /\
  trainingSamples (fun seed key => if (seed =? 50)%Z then 0.99%Q else gen seed key)
    four_samples = trainingSamples gen four_samples.
Proof. repeat split; reflexivity. Qed.

(** * Further properties of the script *)

(** ** The quality mask, exactly *)

Module MaskFacts.
Import EEImage.

Lemma band_map (f : raster -> raster) (t : Z) (bs : list (string * raster)) (name : string) :
  band (mkImage t (map (fun b => (fst b, f (snd b))) bs)) name =
  option_map f (band (mkImage t bs) name).
Proof.
  unfold band. simpl. induction bs as [|b bs IH]; simpl; [reflexivity|].
  destruct (String.eqb (fst b) name); [reflexivity | exact IH].
Qed.

Lemma names_map (f : raster -> raster) (bs : list (string * raster)) :
  map fst (map (fun b => (fst b, f (snd b))) bs) = map fst bs.
Proof. rewrite map_map. reflexivity. Qed.

Lemma both_again (q d r : raster) (p : pixel) :
  both (both q d q) (both q d d) (both q d r) p = both q d r p.
Proof.
  unfold both, mask_by, eq_const.
  destruct (d p) as [u|]; cbn [option_map]; [|reflexivity].
  destruct (q p) as [w|]; cbn [option_map].
  - destruct (Qeq_bool u 0) eqn:Hu; destruct (Qeq_bool w 1) eqn:Hw;
      repeat first
        [ progress cbn [option_map]
        | progress change (Qeq_bool 1 0) with false
        | progress change (Qeq_bool 0 0) with true
        | progress change (Qeq_bool 1 1) with true
        | progress cbv iota
        | rewrite Hu | rewrite Hw ];
      reflexivity.
  - destruct (Qeq_bool u 0) eqn:Hu;
      repeat first
        [ progress cbn [option_map]
        | progress change (Qeq_bool 1 0) with false
        | progress change (Qeq_bool 0 0) with true
        | progress cbv iota
        | rewrite Hu ];
      reflexivity.
Qed.

Lemma select_one_missing (im : Image) (re : string) :
  literal re -> ~ In re (bandNames im) ->
  select_one im re = Err ("Image.select: Pattern '" ++ re ++ "' did not match any bands.").
Proof.
  intros Hlit Hn. unfold select_one.
  destruct (List.filter _ (bands im)) as [|b l] eqn:Hf; [reflexivity|].
  exfalso. assert (Hb : In b (b :: l)) by (left; reflexivity).
  rewrite <- Hf in Hb. apply filter_In in Hb as [Hb Hm].
  apply SelectorFacts.matches_literal in Hm; [|exact Hlit].
  apply Hn. unfold bandNames. rewrite <- Hm. apply in_map, Hb.
Qed.

Lemma select_missing (im : Image) (re : string) :
  literal re -> ~ In re (bandNames im) ->
  select im [re] = Err ("Image.select: Pattern '" ++ re ++ "' did not match any bands.").
Proof.
  intros Hlit Hn. unfold select. simpl. rewrite (select_one_missing im re Hlit Hn).
  reflexivity.
Qed.

End MaskFacts.

(** X1.  On an image with distinct band names that has the two flag
    bands, the mask is computed; the result has the same band names, and
    a pixel of a band is valid in the result exactly when it is valid in
    the input and both flag bands are valid there with quality_flag 1 and
    degrade_flag 0; it then holds the input's value. *)
Theorem qualityMask_exact (im : Image) (q d : raster) :
  List.NoDup (bandNames im) ->
  band im "quality_flag" = Some q ->
  band im "degrade_flag" = Some d ->
  exists out,
    qualityMask im = Ok out /\
    time_start out = time_start im /\
    bandNames out = bandNames im /\
    forall name r0, band im name = Some r0 ->
      exists r,
        band out name = Some r /\
        forall p v,
          r p = Some v <->
          r0 p = Some v /\
          (exists w, q p = Some w /\ (w == 1)%Q) /\
          (exists w, d p = Some w /\ (w == 0)%Q).
Proof.
  intros Hnd Hq Hd. eexists. split; [apply (QualityFacts.qualityMask_total im q d); assumption|].
  split; [reflexivity|]. split.
  - unfold bandNames. simpl. apply (MaskFacts.names_map (both q d)).
  - intros name r0 Hr0.
    exists (both q d r0). split.
    + rewrite (MaskFacts.band_map (both q d)). destruct im as [t bs]. simpl in *.
      rewrite Hr0. reflexivity.
    + intros p v. apply QualityFacts.survives_iff.
Qed.

Lemma qualityMask_exact_witness :
  exists out,
    qualityMask (shot july_2019 1 0) = Ok out /\
    time_start out = time_start (shot july_2019 1 0) /\
    bandNames out = bandNames (shot july_2019 1 0) /\
    forall name r0, band (shot july_2019 1 0) name = Some r0 ->
      exists r,
        band out name = Some r /\
        forall p v,
          r p = Some v <->
          r0 p = Some v /\
          (exists w, const_raster 1 p = Some w /\ (w == 1)%Q) /\
          (exists w, const_raster 0 p = Some w /\ (w == 0)%Q).
Proof.
  apply (qualityMask_exact (shot july_2019 1 0) (const_raster 1) (const_raster 0));
    [names_apart | reflexivity | reflexivity].
Defined.

(** X2.  Masking twice is masking once: on an image with distinct band
    names and the two flag bands, the mask can be applied to its own
    result, and that gives the same band names and, band by band and
    pixel by pixel, the same validity and values. *)
Theorem qualityMask_idempotent (im : Image) (q d : raster) :
  List.NoDup (bandNames im) ->
  band im "quality_flag" = Some q ->
  band im "degrade_flag" = Some d ->
  exists once twice,
    qualityMask im = Ok once /\
    qualityMask once = Ok twice /\
    time_start twice = time_start once /\
    Forall2 (fun b b' => fst b = fst b' /\ forall p, snd b p = snd b' p)
      (bands twice) (bands once).
Proof.
  intros Hnd Hq Hd.
  pose proof (QualityFacts.qualityMask_total im q d Hnd Hq Hd) as Honce.
  set (once := mkImage (time_start im)
                 (map (fun b => (fst b, both q d (snd b))) (bands im))).
  change (qualityMask im = Ok once) in Honce.
  assert (Hnd1 : List.NoDup (bandNames once)).
  { unfold bandNames, once. simpl. rewrite (MaskFacts.names_map (both q d)). exact Hnd. }
  assert (Hq1 : band once "quality_flag" = Some (both q d q)).
  { unfold once. rewrite (MaskFacts.band_map (both q d)).
    destruct im as [t bs]. simpl in *. rewrite Hq. reflexivity. }
  assert (Hd1 : band once "degrade_flag" = Some (both q d d)).
  { unfold once. rewrite (MaskFacts.band_map (both q d)).
    destruct im as [t bs]. simpl in *. rewrite Hd. reflexivity. }
  pose proof (QualityFacts.qualityMask_total once _ _ Hnd1 Hq1 Hd1) as Htwice.
  eexists. eexists. split; [exact Honce|]. split; [exact Htwice|].
  split; [reflexivity|]. unfold once. simpl.
  generalize (bands im). clear. intros bs.
  induction bs as [|b bs IH]; simpl; [constructor|].
  constructor; [|exact IH].
  split; [reflexivity|]. intros p. simpl. apply MaskFacts.both_again.
Qed.

Lemma qualityMask_idempotent_witness :
  exists once twice,
    qualityMask (shot july_2019 1 0) = Ok once /\
    qualityMask once = Ok twice /\
    time_start twice = time_start once /\
    Forall2 (fun b b' => fst b = fst b' /\ forall p, snd b p = snd b' p)
      (bands twice) (bands once).
Proof.
  apply (qualityMask_idempotent (shot july_2019 1 0) (const_raster 1) (const_raster 0));
    [names_apart | reflexivity | reflexivity].
Defined.

(** X3.  An image without a band named quality_flag cannot be masked:
    the first [select] fails, and the mask is that error. *)
Theorem qualityMask_needs_quality_flag (im : Image) :
  ~ In "quality_flag" (bandNames im) ->
  qualityMask im = Err "Image.select: Pattern 'quality_flag' did not match any bands.".
Proof.
  intros Hn. unfold qualityMask.
  rewrite (MaskFacts.select_missing im "quality_flag") by (reflexivity || exact Hn).
  reflexivity.
Qed.

Lemma qualityMask_needs_quality_flag_witness :
  qualityMask (composite 0.4 0.1 0.2 0.15) =
  Err "Image.select: Pattern 'quality_flag' did not match any bands.".
Proof.
  apply (qualityMask_needs_quality_flag (composite 0.4 0.1 0.2 0.15)). names_apart.
Defined.

(** ** The quality filter, both ways *)

Module FilterFacts.
Import EEImage ImageFacts FrameFacts.

(** The three steps of [gedi], laid out. *)
Lemma gedi_steps (ROI : Geometry) (collection out : ImageCollection) :
  gedi ROI collection = Ok out ->
  exists c1,
    Forall2 (fun i m => qualityMask i = Ok m) collection c1 /\
    Forall2 (fun m o =>
               select (clip m ROI) ["rh.*"; "lat_highestreturn"; "lon_highestreturn"] = Ok o)
      (List.filter (EEImageCollection.in_window 1559347200000 1569888000000) c1) out.
Proof.
  unfold gedi. intros H. ok_inv H. rename a into c1.
  apply rmapM_ok in Ha. apply GediFacts.filterDate_ok in Ha0. subst a0.
  unfold EEImageCollection.select in H. apply rmapM_ok in H.
  exists c1. split; [exact Ha|].
  remember (List.filter _ c1) as c2 eqn:Hc2. clear Hc2 Ha.
  revert out H. induction c2 as [|m c2 IH]; intros out H; simpl in H.
  - inversion H. constructor.
  - inversion H as [|? o ? out' Hsel Hrest]; subst. constructor; [exact Hsel | apply IH, Hrest].
Qed.

Lemma select_keeps (im o : Image) (selectors : list string) (b : string * raster) :
  select im selectors = Ok o ->
  In b (bands im) ->
  (exists re, In re selectors /\ Selector.matches re (fst b) = true) ->
  In b (bands o).
Proof.
  unfold select. intros H Hb (re & Hre & Hm). ok_inv H. injection H as <-. simpl.
  apply rmapM_ok in Ha. apply in_concat.
  induction Ha as [|re' bs res bss Hsel _ IH]; [destruct Hre|].
  destruct Hre as [->|Hre].
  - exists bs. split; [left; reflexivity|].
    apply select_one_ok in Hsel. subst bs. apply filter_In. split; assumption.
  - destruct (IH Hre) as (bs' & Hin & Hb'). exists bs'. split; [right; exact Hin | exact Hb'].
Qed.

Lemma band_in (im : Image) (name : string) (r : raster) :
  band im name = Some r -> In (name, r) (bands im).
Proof.
  intros H. apply band_find in H. apply find_some in H as [H _]. exact H.
Qed.

Lemma kept_selector (name : string) :
  (exists rest, name = "rh" +:+ rest) \/
  name = "lat_highestreturn" \/ name = "lon_highestreturn" ->
  exists re, In re ["rh.*"; "lat_highestreturn"; "lon_highestreturn"] /\
             Selector.matches re name = true.
Proof.
  intros [H | [-> | ->]].
  - exists "rh.*". split; [left; reflexivity | apply SelectorFacts.matches_rh, H].
  - exists "lat_highestreturn". split; [right; left; reflexivity | reflexivity].
  - exists "lon_highestreturn". split; [right; right; left; reflexivity | reflexivity].
Qed.

(** A band of a filtered image, traced back to the raw collection. *)
Lemma gedi_trace (ROI : Geometry) (collection out : ImageCollection) (o : Image) :
  gedi ROI collection = Ok out -> In o out ->
  exists i,
    In i collection /\
    time_start o = time_start i /\
    (1559347200000 <= time_start i < 1569888000000)%Z /\
    forall name r, In (name, r) (bands o) ->
      ((exists rest, name = "rh" +:+ rest) \/
       name = "lat_highestreturn" \/ name = "lon_highestreturn") /\
      exists r0,
        In (name, r0) (bands i) /\
        forall p v, r p = Some v ->
          ROI p = true /\
          flag_is i "quality_flag" 1 p /\
          flag_is i "degrade_flag" 0 p /\
          r0 p = Some v.
Proof.
  intros H Ho. apply gedi_steps in H as (c1 & Hq & Hsel).
  destruct (Forall2_in_r _ _ _ _ Hsel Ho) as (m & Hm & Hs).
  apply filter_In in Hm as (Hm & Hwin).
  destruct (Forall2_in_r _ _ _ _ Hq Hm) as (i & Hi & Hqi).
  apply QualityFacts.qualityMask_ok in Hqi as (Htm & Hbands).
  apply select_ok in Hs as (Hto & Hs).
  exists i. split; [exact Hi|]. split; [rewrite Hto; exact Htm|]. split.
  - unfold EEImageCollection.in_window in Hwin. rewrite Htm in Hwin.
    apply andb_true_iff in Hwin as [Hlo Hhi].
    apply Z.leb_le in Hlo. apply Z.ltb_lt in Hhi. split; assumption.
  - intros name r Hr. destruct (Hs _ Hr) as (Hin & Hre). simpl in Hre.
    split; [apply GediFacts.kept_name, Hre|].
    simpl in Hin. apply in_map_iff in Hin as (b1 & Heq & Hb1).
    injection Heq as Hname Hclip.
    destruct (Forall2_in_l _ _ _ _ Hbands Hb1) as (b0 & Hb0 & Hn & Hv).
    exists (snd b0). split.
    + rewrite <- Hname, Hn. destruct b0; exact Hb0.
    + intros p v Hpv. rewrite <- Hclip in Hpv. unfold clip_raster in Hpv.
      destruct (ROI p) eqn:Hroi; [|discriminate].
      destruct (Hv p v Hpv) as (H0 & Hqf & Hdf). auto.
Qed.

End FilterFacts.

(** X4.  The filter loses nothing it should keep.  On a collection of
    GEDI images, if a raw image is dated in the window and one of its
    height or coordinate bands is valid at a pixel of the ROI where
    quality_flag is 1 and degrade_flag is 0, then the filtered collection
    has an image of that date with a band of that name valid at that
    pixel, with the raw value. *)
Theorem gedi_complete (ROI : Geometry) (collection : ImageCollection) (i : Image)
    (name : string) (r0 q d : raster) (p : pixel) (v : Q) :
  Forall gedi_image collection ->
  In i collection ->
  (1559347200000 <= time_start i < 1569888000000)%Z ->
  band i name = Some r0 ->
  ((exists rest, name = "rh" +:+ rest) \/
   name = "lat_highestreturn" \/ name = "lon_highestreturn") ->
  band i "quality_flag" = Some q ->
  band i "degrade_flag" = Some d ->
  ROI p = true ->
  (exists w, q p = Some w /\ (w == 1)%Q) ->
  (exists w, d p = Some w /\ (w == 0)%Q) ->
  r0 p = Some v ->
  exists out o r,
    gedi ROI collection = Ok out /\
    In o out /\
    time_start o = time_start i /\
    In (name, r) (bands o) /\
    r p = Some v.
Proof.
  intros Hwf Hi Hwin Hr0 Hname Hq Hd Hroi Hq1 Hd0 Hv.
  destruct (GediFacts.gedi_total ROI collection Hwf) as (out & Hout & _).
  exists out.
  destruct (FilterFacts.gedi_steps _ _ _ Hout) as (c1 & Hmask & Hsel).
  destruct (FrameFacts.Forall2_in_l _ _ _ _ Hmask Hi) as (m & Hm & Hqm).
  assert (Hnd : List.NoDup (bandNames i)).
  { rewrite Forall_forall in Hwf. apply list_elem_of_In in Hi.
    destruct (Hwf i Hi) as (Hnd & _). exact Hnd. }
  rewrite (QualityFacts.qualityMask_total i q d Hnd Hq Hd) in Hqm.
  injection Hqm as Hqm.
  assert (Hmf : In m (List.filter
                        (EEImageCollection.in_window 1559347200000 1569888000000) c1)).
  { apply filter_In. split; [exact Hm|]. subst m.
    unfold EEImageCollection.in_window. simpl.
    apply andb_true_iff. split; [apply Z.leb_le | apply Z.ltb_lt]; lia. }
  destruct (FrameFacts.Forall2_in_l _ _ _ _ Hsel Hmf) as (o & Ho & Hso).
  exists o, (EEImage.clip_raster ROI (both q d r0)).
  split; [exact Hout|]. split; [exact Ho|]. split.
  { apply ImageFacts.select_ok in Hso as [-> _]. subst m. reflexivity. }
  split.
  - eapply FilterFacts.select_keeps; [exact Hso | | apply FilterFacts.kept_selector, Hname].
    subst m. simpl. apply in_map_iff.
    exists (name, both q d r0). split; [reflexivity|].
    apply in_map_iff. exists (name, r0). split; [reflexivity|].
    apply FilterFacts.band_in, Hr0.
  - unfold EEImage.clip_raster. rewrite Hroi.
    apply QualityFacts.survives_iff. auto.
Qed.

Lemma shot_is_gedi_image (t : Z) (q d : Q) : gedi_image (shot t q d).
Proof.
  unfold gedi_image. split; [names_apart|].
  split; [eexists; reflexivity|]. split; [eexists; reflexivity|].
  split; [simpl; auto 10|]. split; [simpl; auto 10|].
  exists "50". left. reflexivity.
Qed.

Lemma gedi_complete_witness :
  exists out o r,
    gedi west_of_10 [shot july_2019 1 0; shot july_2019 0 0] = Ok out /\
    In o out /\
    time_start o = time_start (shot july_2019 1 0) /\
    In ("rh95", r) (bands o) /\
    r (3, 4)%Z = Some 20%Q.
Proof.
  apply (gedi_complete west_of_10 [shot july_2019 1 0; shot july_2019 0 0]
           (shot july_2019 1 0) "rh95"
           (const_raster 20) (const_raster 1) (const_raster 0) (3, 4)%Z 20%Q).
  - repeat (constructor; [apply shot_is_gedi_image|]). constructor.
  - left. reflexivity.
  - unfold july_2019. simpl. lia.
  - reflexivity.
  - left. exists "95". reflexivity.
  - reflexivity.
  - reflexivity.
  - reflexivity.
  - exists 1%Q. split; reflexivity.
  - exists 0%Q. split; reflexivity.
  - reflexivity.
Defined.

(** X5.  Only the date removes an image.  On a collection of GEDI images
    the filter returns one image for each raw image dated in the window,
    in the same order and with the same dates: an image all of whose
    shots fail the flags stays in the collection, fully masked. *)
Theorem gedi_keeps_every_dated_image (ROI : Geometry) (collection : ImageCollection) :
  Forall gedi_image collection ->
  exists out,
    gedi ROI collection = Ok out /\
    map time_start out =
      map time_start
        (List.filter (EEImageCollection.in_window 1559347200000 1569888000000) collection) /\
    List.length out =
      List.length
        (List.filter (EEImageCollection.in_window 1559347200000 1569888000000) collection).
Proof.
  intros Hwf. destruct (GediFacts.gedi_total ROI collection Hwf) as (out & Hout & Ht).
  exists out. split; [exact Hout|]. split; [exact Ht|].
  apply (f_equal (@List.length Z)) in Ht. rewrite !length_map in Ht. exact Ht.
Qed.

Lemma gedi_keeps_every_dated_image_witness :
  exists out,
    gedi west_of_10 [shot july_2019 1 0; shot july_2019 0 0; shot 1569888000000 1 0]
      = Ok out /\
    map time_start out =
      map time_start
        (List.filter (EEImageCollection.in_window 1559347200000 1569888000000)
           [shot july_2019 1 0; shot july_2019 0 0; shot 1569888000000 1 0]) /\
    List.length out =
      List.length
        (List.filter (EEImageCollection.in_window 1559347200000 1569888000000)
           [shot july_2019 1 0; shot july_2019 0 0; shot 1569888000000 1 0]).
Proof.
  apply (gedi_keeps_every_dated_image west_of_10
           [shot july_2019 1 0; shot july_2019 0 0; shot 1569888000000 1 0]).
  repeat (constructor; [apply shot_is_gedi_image|]). constructor.
Defined.

Module ReapplyFacts.
Import EEImage ImageFacts FrameFacts.

Lemma no_flag_left (ROI : Geometry) (collection out : ImageCollection) (o : Image) :
  gedi ROI collection = Ok out -> In o out -> ~ In "quality_flag" (bandNames o).
Proof.
  intros H Ho Hin. destruct (FilterFacts.gedi_trace _ _ _ _ H Ho) as (i & _ & _ & _ & Hb).
  unfold bandNames in Hin. apply in_map_iff in Hin as ([n r] & Hn & Hin). simpl in Hn.
  subst n. destruct (Hb _ _ Hin) as ([[rest Hr] | [Hr | Hr]] & _); discriminate Hr.
Qed.

(** A band of a narrowed image, traced back to the raw collection. *)
Lemma gedi95_trace (ROI : Geometry) (collection out : ImageCollection) (o : Image) :
  gedi95 ROI collection = Ok out -> In o out ->
  exists i,
    In i collection /\
    time_start o = time_start i /\
    (1559347200000 <= time_start i < 1569888000000)%Z /\
    forall name r, In (name, r) (bands o) ->
      name = "rh95" /\
      exists r0,
        In ("rh95", r0) (bands i) /\
        forall p v, r p = Some v ->
          ROI p = true /\
          flag_is i "quality_flag" 1 p /\
          flag_is i "degrade_flag" 0 p /\
          r0 p = Some v.
Proof.
  unfold gedi95. intros H Ho. ok_inv H. rename a into g.
  unfold EEImageCollection.select in H. apply rmapM_ok in H.
  destruct (Forall2_in_r _ _ _ _ H Ho) as (m & Hm & Hsel).
  apply select_ok in Hsel as (Ht & Hsel).
  destruct (FilterFacts.gedi_trace _ _ _ _ Ha Hm) as (i & Hi & Htm & Hwin & Hb).
  exists i. split; [exact Hi|]. split; [rewrite Ht; exact Htm|]. split; [exact Hwin|].
  intros name r Hr. destruct (Hsel _ Hr) as (Hin & re & [<-|[]] & Hmatch).
  simpl in Hmatch. apply (SelectorFacts.matches_literal "rh95") in Hmatch; [|reflexivity].
  subst name. split; [reflexivity|].
  destruct (Hb _ _ Hin) as (_ & r0 & Hr0 & Hv). exists r0. split; assumption.
Qed.

End ReapplyFacts.

(** X6.  The filter cannot be applied to its own output: the images it
    returns no longer carry the flag bands, so as soon as the output has
    an image, filtering it again is the error of the first [select]. *)
Theorem gedi_cannot_be_reapplied (ROI ROI' : Geometry) (collection out : ImageCollection) :
  gedi ROI collection = Ok out ->
  out <> [] ->
  gedi ROI' out = Err "Image.select: Pattern 'quality_flag' did not match any bands.".
Proof.
  intros H Hne. destruct out as [|o rest]; [congruence|].
  assert (Hn : ~ In "quality_flag" (bandNames o)).
  { eapply ReapplyFacts.no_flag_left; [exact H | left; reflexivity]. }
  unfold gedi. cbn [rmapM]. unfold qualityMask at 1.
  rewrite (MaskFacts.select_missing o "quality_flag") by (reflexivity || exact Hn).
  reflexivity.
Qed.

Lemma gedi_cannot_be_reapplied_witness :
  exists out,
    gedi west_of_10 [shot july_2019 1 0] = Ok out /\
    out <> [] /\
    gedi west_of_10 out =
      Err "Image.select: Pattern 'quality_flag' did not match any bands.".
Proof.
  eexists. split; [reflexivity|]. split; [discriminate|].
  apply (gedi_cannot_be_reapplied west_of_10 west_of_10 [shot july_2019 1 0]);
    [reflexivity | discriminate].
Defined.

(** X7.  The narrowed collection the script takes the median of: each of
    its images comes from a raw image dated in the window and carries
    nothing but rh95; wherever that band is valid, the pixel lies in the
    ROI, the raw image has quality_flag 1 and degrade_flag 0 there, and
    the value is the raw rh95. *)
Theorem gedi95_sound (ROI : Geometry) (collection out : ImageCollection) (o : Image) :
  gedi95 ROI collection = Ok out ->
  In o out ->
  exists i,
    In i collection /\
    time_start o = time_start i /\
    (1559347200000 <= time_start i < 1569888000000)%Z /\
    forall name r, In (name, r) (bands o) ->
      name = "rh95" /\
      exists r0,
        In ("rh95", r0) (bands i) /\
        forall p v, r p = Some v ->
          ROI p = true /\
          flag_is i "quality_flag" 1 p /\
          flag_is i "degrade_flag" 0 p /\
          r0 p = Some v.
Proof. apply ReapplyFacts.gedi95_trace. Qed.

Lemma gedi95_sound_witness :
  exists out o,
    gedi95 west_of_10 [shot july_2019 1 0] = Ok out /\
    In o out /\
    exists i,
      In i [shot july_2019 1 0] /\
      time_start o = time_start i /\
      (1559347200000 <= time_start i < 1569888000000)%Z /\
      forall name r, In (name, r) (bands o) ->
        name = "rh95" /\
        exists r0,
          In ("rh95", r0) (bands i) /\
          forall p v, r p = Some v ->
            west_of_10 p = true /\
            flag_is i "quality_flag" 1 p /\
            flag_is i "degrade_flag" 0 p /\
            r0 p = Some v.
Proof.
  eexists. eexists. split; [reflexivity|]. split; [left; reflexivity|].
  apply (gedi95_sound west_of_10 [shot july_2019 1 0] _ _ Logic.eq_refl).
  left. reflexivity.
Defined.

(** X8.  Every pixel of the median height raster is backed by good shots.
    The raster has no band but rh95, and where it is valid the pixel lies
    in the ROI and the value is the platform's median of a list, not
    empty, each value of which is the raw rh95 of an image dated in the
    window, at that pixel, with quality_flag 1 and degrade_flag 0. *)
Theorem gediMedian_backed (median_of : list Q -> Q) (ROI : Geometry)
    (collection : ImageCollection) (med : Image) (name : string) (r : raster)
    (p : pixel) (v : Q) :
  gediMedian median_of ROI collection = Ok med ->
  In (name, r) (bands med) ->
  r p = Some v ->
  name = "rh95" /\
  ROI p = true /\
  exists vs,
    vs <> [] /\
    v = median_of vs /\
    forall x, In x vs ->
      exists i r0,
        In i collection /\
        (1559347200000 <= time_start i < 1569888000000)%Z /\
        In ("rh95", r0) (bands i) /\
        r0 p = Some x /\
        flag_is i "quality_flag" 1 p /\
        flag_is i "degrade_flag" 0 p.
Proof.
  unfold gediMedian. intros H Hr Hv. ok_inv H. rename a into g. injection H as <-.
  destruct g as [|first rest]; [destruct Hr|].
  remember (first :: rest) as g eqn:Hg.
  unfold median in Hr. rewrite Hg in Hr. cbn [bands] in Hr. rewrite <- Hg in Hr.
  apply in_map_iff in Hr as (n & Heq & Hn). injection Heq as Hname Hr. subst n r.
  unfold median_raster in Hv.
  set (rs := omap (fun im => band im name) g) in *.
  destruct (omap (fun r : raster => r p) rs) as [|x0 vs0] eqn:Hvs; [discriminate|].
  injection Hv as <-.
  assert (Hback : forall x, In x (x0 :: vs0) ->
            name = "rh95" /\ ROI p = true /\
            exists i r0,
              In i collection /\
              (1559347200000 <= time_start i < 1569888000000)%Z /\
              In ("rh95", r0) (bands i) /\ r0 p = Some x /\
              flag_is i "quality_flag" 1 p /\ flag_is i "degrade_flag" 0 p).
  { intros x Hx. rewrite <- Hvs in Hx.
    apply PairFacts.omap_in in Hx as (r1 & Hr1 & Hx).
    apply PairFacts.omap_in in Hr1 as (im & Him & Hband).
    apply FilterFacts.band_in in Hband.
    destruct (ReapplyFacts.gedi95_trace _ _ _ _ Ha Him) as (i & Hi & _ & Hwin & Hb).
    destruct (Hb _ _ Hband) as (Hname & r0 & Hr0 & Hpix).
    destruct (Hpix p x Hx) as (Hroi & Hq & Hd & Hx0).
    split; [exact Hname|]. split; [exact Hroi|].
    exists i, r0. repeat split; assumption || apply Hwin. }
  destruct (Hback x0 (or_introl Logic.eq_refl)) as (Hname & Hroi & _).
  split; [exact Hname|]. split; [exact Hroi|].
  exists (x0 :: vs0). split; [discriminate|]. split; [reflexivity|].
  intros x Hx. destruct (Hback x Hx) as (_ & _ & Hex). exact Hex.
Qed.

Lemma gediMedian_backed_witness :
  exists med r,
    gediMedian lower_median west_of_10
      [shot_of_height july_2019 20; shot july_2019 0 0;
       shot_of_height (july_2019 + 2678400000) 24] = Ok med /\
    In ("rh95", r) (bands med) /\
    r (0, 0)%Z = Some 20%Q /\
    "rh95" = "rh95" /\
    west_of_10 (0, 0)%Z = true /\
    exists vs,
      vs <> [] /\
      20%Q = lower_median vs /\
      forall x, In x vs ->
        exists i r0,
          In i [shot_of_height july_2019 20; shot july_2019 0 0;
                shot_of_height (july_2019 + 2678400000) 24] /\
          (1559347200000 <= time_start i < 1569888000000)%Z /\
          In ("rh95", r0) (bands i) /\
          r0 (0, 0)%Z = Some x /\
          flag_is i "quality_flag" 1 (0, 0)%Z /\
          flag_is i "degrade_flag" 0 (0, 0)%Z.
Proof.
  eexists. eexists. split; [reflexivity|]. split; [left; reflexivity|].
  split; [reflexivity|].
  eapply (gediMedian_backed lower_median west_of_10
            [shot_of_height july_2019 20; shot july_2019 0 0;
             shot_of_height (july_2019 + 2678400000) 24]);
    [reflexivity | left; reflexivity | reflexivity].
Defined.

(** ** The indices, further *)

Module StackFacts.
Import EEImage ImageFacts.

Lemma rename_ok (e im : Image) (name : string) :
  rename e name = Ok im -> exists r, im = mkImage (time_start e) [(name, r)].
Proof.
  unfold rename. destruct (bands e) as [|b [|b' bs]]; try discriminate.
  intros [= <-]. eexists. reflexivity.
Qed.

Lemma expression_time (divide : Q -> Q -> option Q) (im e : Image) (text : string)
    (env : gmap string Image) :
  Expression.expression divide im text env = Ok e -> time_start e = time_start im.
Proof.
  unfold Expression.expression. intros H. ok_inv H. injection H as <-. reflexivity.
Qed.

Lemma ndvi_single (divide : Q -> Q -> option Q) (image im : Image) :
  ndvi divide image = Ok im -> exists r, im = mkImage (time_start image) [("ndvi", r)].
Proof.
  unfold ndvi. intros H. ok_inv H. apply expression_time in Ha1.
  apply rename_ok in H as [r ->]. rewrite Ha1. eexists. reflexivity.
Qed.

Lemma nbr_single (divide : Q -> Q -> option Q) (image im : Image) :
  nbr divide image = Ok im -> exists r, im = mkImage (time_start image) [("nbr", r)].
Proof.
  unfold nbr. intros H. ok_inv H. apply expression_time in Ha1.
  apply rename_ok in H as [r ->]. rewrite Ha1. eexists. reflexivity.
Qed.

Lemma ndmi_single (divide : Q -> Q -> option Q) (image im : Image) :
  ndmi divide image = Ok im -> exists r, im = mkImage (time_start image) [("ndmi", r)].
Proof.
  unfold ndmi. intros H. ok_inv H. apply expression_time in Ha1.
  apply rename_ok in H as [r ->]. rewrite Ha1. eexists. reflexivity.
Qed.

Lemma addBands_single (im src : Image) (b : string * raster) :
  bands src = [b] ->
  exists n, bands (addBands im src) = bands im ++ [(n, snd b)].
Proof.
  intros Hb. unfold addBands. rewrite Hb. simpl. eexists. reflexivity.
Qed.

Lemma find_app_first {A} (t : A -> bool) (l l' : list A) (x : A) :
  find t l = Some x -> find t (l ++ l') = Some x.
Proof.
  induction l as [|a l IH]; simpl; [discriminate|].
  destruct (t a); [intros H; exact H | exact IH].
Qed.

Lemma band_app_first (t t' : Z) (bs extra : list (string * raster)) (name : string) (r : raster) :
  band (mkImage t bs) name = Some r -> band (mkImage t' (bs ++ extra)) name = Some r.
Proof.
  unfold band. simpl.
  destruct (find _ bs) as [b|] eqn:Hf; [|discriminate].
  intros H. rewrite (find_app_first _ _ _ _ Hf). exact H.
Qed.

Lemma stacked_shape (divide : Q -> Q -> option Q) (image st : Image) :
  stacked divide image = Ok st ->
  exists n1 n2 n3 r1 r2 r3,
    ndvi divide image = Ok (mkImage (time_start image) [("ndvi", r1)]) /\
    nbr divide image = Ok (mkImage (time_start image) [("nbr", r2)]) /\
    ndmi divide image = Ok (mkImage (time_start image) [("ndmi", r3)]) /\
    st = mkImage (time_start image) (bands image ++ [(n1, r1); (n2, r2); (n3, r3)]).
Proof.
  unfold stacked. intros H. ok_inv H. injection H as <-.
  destruct (ndvi_single _ _ _ Ha) as [r1 ->].
  destruct (nbr_single _ _ _ Ha0) as [r2 ->].
  destruct (ndmi_single _ _ _ Ha1) as [r3 ->].
  eexists _, _, _, r1, r2, r3.
  split; [exact Ha|]. split; [exact Ha0|]. split; [exact Ha1|].
  unfold addBands. simpl. rewrite <- !app_assoc. reflexivity.
Qed.

End StackFacts.

(** X9.  The index step never touches the composite's own bands.
    Whenever the extended raster is built, it has the composite's date,
    its bands are the composite's bands, in order, followed by exactly
    three more, and every band of the composite is found in it under the
    same name with the same raster. *)
Theorem stacked_frame (divide : Q -> Q -> option Q) (image st : Image) :
  stacked divide image = Ok st ->
  time_start st = time_start image /\
  (exists extra, bands st = bands image ++ extra /\ List.length extra = 3%nat) /\
  forall name r, band image name = Some r -> band st name = Some r.
Proof.
  intros H.
  destruct (StackFacts.stacked_shape _ _ _ H) as (n1 & n2 & n3 & r1 & r2 & r3 & _ & _ & _ & ->).
  split; [reflexivity|]. split.
  - eexists. split; reflexivity.
  - intros name r Hr. destruct image as [t bs].
    eapply StackFacts.band_app_first, Hr.
Qed.

Lemma stacked_frame_witness :
  exists st,
    stacked ee_divide (composite 0.4 0.1 0.2 0.15) = Ok st /\
    time_start st = time_start (composite 0.4 0.1 0.2 0.15) /\
    (exists extra,
       bands st = bands (composite 0.4 0.1 0.2 0.15) ++ extra /\
       List.length extra = 3%nat) /\
    forall name r,
      band (composite 0.4 0.1 0.2 0.15) name = Some r -> band st name = Some r.
Proof.
  eexists. split; [reflexivity|].
  apply (stacked_frame ee_divide (composite 0.4 0.1 0.2 0.15)). reflexivity.
Defined.

Module RangeFacts.

Lemma quotient_in_unit (a b : Q) :
  (0 <= a)%Q -> (0 <= b)%Q -> (0 < a + b)%Q ->
  (-1 <= (a - b) / (a + b) <= 1)%Q.
Proof.
  intros Ha Hb Hs. split.
  - apply Qle_shift_div_l; [exact Hs | lra].
  - apply Qle_shift_div_r; [exact Hs | lra].
Qed.

Lemma index_in_unit (divide : Q -> Q -> option Q) (x y : raster) (p : pixel) (a b : Q) :
  (forall u w, ~ (w == 0)%Q -> divide u w = Some (u / w)%Q) ->
  x p = Some a -> y p = Some b ->
  (0 <= a)%Q -> (0 <= b)%Q -> (0 < a + b)%Q ->
  exists v, index_raster divide x y p = Some v /\ (-1 <= v <= 1)%Q.
Proof.
  intros Hdiv Hx Hy Ha Hb Hs.
  rewrite IndexFacts.nd_index, Hx, Hy. unfold spec_normalized_difference.
  rewrite Hdiv by lra. eexists. split; [reflexivity|].
  apply quotient_in_unit; assumption.
Qed.

End RangeFacts.

(** X10.  The indices stay between -1 and 1.  With a division that is the
    quotient wherever the divisor is not 0, on a composite that has the
    four bands, at every pixel where the two bands of an index are valid,
    not negative and not both 0, the index is valid and its value lies in
    [-1, 1]. *)
Theorem indices_within_unit
    (divide : Q -> Q -> option Q) (image : Image) (nir red swir1 swir2 : raster) :
  (forall x y, ~ (y == 0)%Q -> divide x y = Some (x / y)%Q) ->
  List.NoDup (bandNames image) ->
  band image "B8_median" = Some nir ->
  band image "B4_median" = Some red ->
  band image "B11_median" = Some swir1 ->
  band image "B12_median" = Some swir2 ->
  exists r_ndvi r_nbr r_ndmi,
    ndvi divide image = Ok (mkImage (time_start image) [("ndvi", r_ndvi)]) /\
    nbr divide image = Ok (mkImage (time_start image) [("nbr", r_nbr)]) /\
    ndmi divide image = Ok (mkImage (time_start image) [("ndmi", r_ndmi)]) /\
    forall p a, nir p = Some a -> (0 <= a)%Q ->
      (forall b, red p = Some b -> (0 <= b)%Q -> (0 < a + b)%Q ->
         exists v, r_ndvi p = Some v /\ (-1 <= v <= 1)%Q) /\
      (forall b, swir1 p = Some b -> (0 <= b)%Q -> (0 < a + b)%Q ->
         exists v, r_nbr p = Some v /\ (-1 <= v <= 1)%Q) /\
      (forall b, swir2 p = Some b -> (0 <= b)%Q -> (0 < a + b)%Q ->
         exists v, r_ndmi p = Some v /\ (-1 <= v <= 1)%Q).
Proof.
  intros Hdiv Hnd Hnir Hred Hs1 Hs2.
  exists (index_raster divide nir red), (index_raster divide nir swir1),
         (index_raster divide nir swir2).
  split; [apply IndexFacts.ndvi_ok; assumption|].
  split; [apply IndexFacts.nbr_ok; assumption|].
  split; [apply IndexFacts.ndmi_ok; assumption|].
  intros p a Ha Ha0.
  repeat split; intros b Hb Hb0 Hs;
    apply (RangeFacts.index_in_unit divide _ _ p a b); assumption.
Qed.

Lemma indices_within_unit_witness :
  exists r_ndvi r_nbr r_ndmi,
    ndvi ee_divide (composite 0.4 0.1 0.2 0.15) = Ok (mkImage 0 [("ndvi", r_ndvi)]) /\
    nbr ee_divide (composite 0.4 0.1 0.2 0.15) = Ok (mkImage 0 [("nbr", r_nbr)]) /\
    ndmi ee_divide (composite 0.4 0.1 0.2 0.15) = Ok (mkImage 0 [("ndmi", r_ndmi)]) /\
    forall p a, const_raster 0.4 p = Some a -> (0 <= a)%Q ->
      (forall b, const_raster 0.1 p = Some b -> (0 <= b)%Q -> (0 < a + b)%Q ->
         exists v, r_ndvi p = Some v /\ (-1 <= v <= 1)%Q) /\
      (forall b, const_raster 0.2 p = Some b -> (0 <= b)%Q -> (0 < a + b)%Q ->
         exists v, r_nbr p = Some v /\ (-1 <= v <= 1)%Q) /\
      (forall b, const_raster 0.15 p = Some b -> (0 <= b)%Q -> (0 < a + b)%Q ->
         exists v, r_ndmi p = Some v /\ (-1 <= v <= 1)%Q).
Proof.
  apply (indices_within_unit ee_divide (composite 0.4 0.1 0.2 0.15)
           (const_raster 0.4) (const_raster 0.1) (const_raster 0.2) (const_raster 0.15));
    try reflexivity; names_apart.
Defined.

(** X11.  A composite without the near-infrared band stops everything
    downstream: the first [select] of the first index fails, and the
    index, the extended raster, the training table, the model, the
    classified testing table, the predicted raster and the evaluation
    table are all that one error. *)
Theorem missing_band_stops_the_run
    (divide : Q -> Q -> option Q) (uniform : Z -> string -> Q)
    (predict : Classifier -> list Q -> Q)
    (ROI : Geometry) (image : Image) (S2samples : FeatureCollection) :
  ~ In "B8_median" (bandNames image) ->
  let e := "Image.select: Pattern 'B8_median' did not match any bands." in
  ndvi divide image = Err e /\
  stacked divide image = Err e /\
  training divide uniform image S2samples = Err e /\
  RFmodel divide uniform image S2samples = Err e /\
  testPred divide uniform predict image S2samples = Err e /\
  prediction divide uniform predict ROI image S2samples = Err e /\
  evalSamples divide uniform predict ROI image S2samples = Err e.
Proof.
  intros Hn e.
  assert (H1 : ndvi divide image = Err e).
  { unfold ndvi. rewrite (MaskFacts.select_missing image "B8_median")
      by (reflexivity || exact Hn). reflexivity. }
  assert (H2 : stacked divide image = Err e) by (unfold stacked; rewrite H1; reflexivity).
  assert (H3 : training divide uniform image S2samples = Err e)
    by (unfold training; rewrite H2; reflexivity).
  assert (H4 : RFmodel divide uniform image S2samples = Err e)
    by (unfold RFmodel; rewrite H3; reflexivity).
  assert (H5 : prediction divide uniform predict ROI image S2samples = Err e)
    by (unfold prediction; rewrite H2; reflexivity).
  repeat split; try assumption.
  - unfold testPred, testing. rewrite H2. reflexivity.
  - unfold evalSamples. rewrite H5. reflexivity.
Qed.

Lemma missing_band_stops_the_run_witness :
  let e := "Image.select: Pattern 'B8_median' did not match any bands." in
  ndvi ee_divide (shot july_2019 1 0) = Err e /\
  stacked ee_divide (shot july_2019 1 0) = Err e /\
  training ee_divide gen (shot july_2019 1 0) four_samples = Err e /\
  RFmodel ee_divide gen (shot july_2019 1 0) four_samples = Err e /\
  testPred ee_divide gen flat_forest (shot july_2019 1 0) four_samples = Err e /\
  prediction ee_divide gen flat_forest west_of_10 (shot july_2019 1 0) four_samples = Err e /\
  evalSamples ee_divide gen flat_forest west_of_10 (shot july_2019 1 0) four_samples = Err e.
Proof.
  apply (missing_band_stops_the_run ee_divide gen flat_forest west_of_10
           (shot july_2019 1 0) four_samples).
  names_apart.
Defined.

(** ** The splitter, further *)

Module CountFacts.

Lemma filter_length_le {A} (t : A -> bool) (l : list A) :
  (List.length (List.filter t l) <= List.length l)%nat.
Proof.
  induction l as [|x l IH]; simpl; [lia|]. destruct (t x); simpl; lia.
Qed.

Lemma filter_keeps_all {A} (t : A -> bool) (l : list A) :
  List.length (List.filter t l) = List.length l <-> forall x, In x l -> t x = true.
Proof.
  induction l as [|x l IH]; simpl.
  - split; [intros _ y [] | reflexivity].
  - pose proof (filter_length_le t l) as Hle. destruct (t x) eqn:Hx; simpl.
    + split.
      * intros [= Hlen] y [<-|Hy]; [exact Hx | apply IH; assumption].
      * intros H. f_equal. apply IH. intros y Hy. apply H. right. exact Hy.
    + split; [lia|]. intros H. rewrite (H x (or_introl Logic.eq_refl)) in Hx. discriminate.
Qed.

Lemma drawn_from (uniform : Z -> string -> Q) (S2samples : FeatureCollection) (f : Feature) :
  In f (withRandom uniform S2samples) ->
  exists g,
    In g S2samples /\ get g "rh95" <> None /\
    f = set g "random" (uniform 0%Z (sys_index g)).
Proof.
  unfold withRandom, EEFeatureCollection.randomColumn, validFeatures,
    EEFeatureCollection.filter.
  intros Hf. apply in_map_iff in Hf as (g & <- & Hg).
  apply filter_In in Hg as [Hg Ht]. apply SplitFacts.test_not_null in Ht.
  exists g. repeat split; assumption.
Qed.

Lemma split_in_drawn (uniform : Z -> string -> Q) (S2samples : FeatureCollection) (f : Feature) :
  In f (trainingSamples uniform S2samples) \/ In f (testingSamples uniform S2samples) ->
  In f (withRandom uniform S2samples).
Proof.
  unfold trainingSamples, testingSamples, EEFeatureCollection.filter.
  intros [H|H]; apply filter_In in H; tauto.
Qed.

End CountFacts.

(** X12.  The split changes nothing in a sample but the [random] column.
    Every Training or Testing sample is a sample of the input table with
    a height, with the same index and the same geometry, its [random]
    property set to the generator's value at seed 0 for that index, and
    every other property as it was. *)
Theorem split_keeps_samples
    (uniform : Z -> string -> Q) (S2samples : FeatureCollection) (f : Feature) :
  In f (trainingSamples uniform S2samples) \/ In f (testingSamples uniform S2samples) ->
  exists g,
    In g S2samples /\
    get g "rh95" <> None /\
    sys_index f = sys_index g /\
    geometry f = geometry g /\
    get f "random" = Some (uniform 0%Z (sys_index g)) /\
    forall name, name <> "random" -> get f name = get g name.
Proof.
  intros H. apply CountFacts.split_in_drawn in H.
  apply CountFacts.drawn_from in H as (g & Hg & Hh & ->).
  exists g. split; [exact Hg|]. split; [exact Hh|].
  split; [reflexivity|]. split; [reflexivity|].
  split; [apply SplitFacts.get_set_same|].
  intros name Hname. apply SplitFacts.get_set_other. congruence.
Qed.

Lemma split_keeps_samples_witness :
  exists g,
    In g four_samples /\
    get g "rh95" <> None /\
    sys_index (set (sample "dd" (3, 0)%Z (Some 5%Q)) "random" 0.74%Q) = sys_index g /\
    geometry (set (sample "dd" (3, 0)%Z (Some 5%Q)) "random" 0.74%Q) = geometry g /\
    get (set (sample "dd" (3, 0)%Z (Some 5%Q)) "random" 0.74%Q) "random"
      = Some (gen 0%Z (sys_index g)) /\
    forall name, name <> "random" ->
      get (set (sample "dd" (3, 0)%Z (Some 5%Q)) "random" 0.74%Q) name = get g name.
Proof.
  apply (split_keeps_samples gen four_samples).
  right. left. reflexivity.
Defined.

(** X13.  The two printed counts add up to the number of samples that
    have a height, which is at most the size of the table and equals it
    exactly when no sample has a null rh95. *)
Theorem split_counts (uniform : Z -> string -> Q) (S2samples : FeatureCollection) :
  (EEFeatureCollection.size (trainingSamples uniform S2samples) +
   EEFeatureCollection.size (testingSamples uniform S2samples)
   = EEFeatureCollection.size (validFeatures S2samples))%nat /\
  (EEFeatureCollection.size (validFeatures S2samples)
   <= EEFeatureCollection.size S2samples)%nat /\
  (EEFeatureCollection.size (validFeatures S2samples) = EEFeatureCollection.size S2samples
   <-> forall f, In f S2samples -> get f "rh95" <> None).
Proof.
  unfold EEFeatureCollection.size. split; [|split].
  - pose proof (SplitFacts.filter_split
                  (EEFilter.test (EEFilter.lt "random" 0.7))
                  (withRandom uniform S2samples)) as Hp.
    apply Permutation_length in Hp. rewrite length_app in Hp.
    unfold trainingSamples, testingSamples, EEFeatureCollection.filter.
    change (EEFilter.test (EEFilter.gte "random" 0.7))
      with (fun x => negb (EEFilter.test (EEFilter.lt "random" 0.7) x)).
    rewrite <- Hp. unfold withRandom, EEFeatureCollection.randomColumn.
    apply length_map.
  - apply CountFacts.filter_length_le.
  - unfold validFeatures, EEFeatureCollection.filter.
    rewrite CountFacts.filter_keeps_all. split; intros H f Hf.
    + apply SplitFacts.test_not_null, H, Hf.
    + apply SplitFacts.test_not_null, H, Hf.
Qed.

(** X14.  The split does not depend on the order of the table: if two
    sample tables hold the same samples in another order, their Training
    tables hold the same samples, and so do their Testing tables. *)
Theorem split_ignores_order (uniform : Z -> string -> Q) (s1 s2 : FeatureCollection) :
  Permutation s1 s2 ->
  Permutation (trainingSamples uniform s1) (trainingSamples uniform s2) /\
  Permutation (testingSamples uniform s1) (testingSamples uniform s2).
Proof. apply SplitFacts.split_order_independent. Qed.

Lemma split_ignores_order_witness :
  Permutation (trainingSamples gen four_samples) (trainingSamples gen (rev four_samples)) /\
  Permutation (testingSamples gen four_samples) (testingSamples gen (rev four_samples)).
Proof.
  apply (split_ignores_order gen four_samples (rev four_samples)).
  apply Permutation_rev.
Defined.

(** ** The training and testing tables *)

Module TableFacts.

Lemma append_length (s t : string) :
  String.length (s +:+ t) = (String.length s + String.length t)%nat.
Proof. induction s as [|c s IH]; simpl; [reflexivity | rewrite IH; reflexivity]. Qed.

Lemma append_cancel_r (s1 s2 t : string) : s1 +:+ t = s2 +:+ t -> s1 = s2.
Proof.
  revert s2. induction s1 as [|c s1 IH]; intros [|c2 s2] H; simpl in H.
  - reflexivity.
  - apply (f_equal String.length) in H. rewrite !append_length in H. simpl in H. lia.
  - apply (f_equal String.length) in H. rewrite !append_length in H. simpl in H. lia.
  - change (String c (s1 +:+ t) = String c2 (s2 +:+ t)) in H.
    injection H as -> H. f_equal. apply IH, H.
Qed.

(** The dictionary of the sampled band values answers like the image. *)
Lemma sampled_lookup (bs : list (string * raster)) (p : pixel) (vs : list (string * Q))
    (n : string) :
  mapM (fun b : string * raster => v ← snd b p; Some (fst b, v)) bs = Some vs ->
  (list_to_map vs : gmap string Q) !! n =
  match find (fun b => String.eqb (fst b) n) bs with
  | Some b => snd b p
  | None => None
  end.
Proof.
  revert vs. induction bs as [|b bs IH]; intros vs; cbn.
  - intros [= <-]. reflexivity.
  - destruct (snd b p) as [v|] eqn:Hv; cbn; [|discriminate].
    destruct (mapM _ bs) as [vs'|] eqn:Hvs; cbn; [|discriminate].
    intros [= <-]. cbn. destruct (String.eqb (fst b) n) eqn:Hn.
    + apply String.eqb_eq in Hn. subst n. rewrite lookup_insert_eq. symmetry. exact Hv.
    + apply String.eqb_neq in Hn. rewrite lookup_insert_ne by exact Hn. apply IH. reflexivity.
Qed.

Lemma not_a_band (im : Image) (n : string) : ~ In n (bandNames im) -> band im n = None.
Proof.
  intros Hn. unfold band. destruct (find _ (bands im)) as [b|] eqn:Hf; [|reflexivity].
  exfalso. apply find_some in Hf as [Hb He]. apply String.eqb_eq in He.
  apply Hn. unfold bandNames. rewrite <- He. apply in_map, Hb.
Qed.

Lemma is_a_band (im : Image) (n : string) : In n (bandNames im) -> exists b, band im n = Some b.
Proof.
  intros Hn. destruct (band im n) as [b|] eqn:Hb; [eexists; reflexivity|].
  exfalso. unfold band in Hb. destruct (find _ (bands im)) as [x|] eqn:Hf; [discriminate|].
  unfold bandNames in Hn. apply in_map_iff in Hn as (x & <- & Hx).
  pose proof (find_none _ _ Hf x Hx) as Hne. simpl in Hne.
  rewrite String.eqb_refl in Hne. discriminate.
Qed.

(** A row [sampleRegions] makes of a feature, read property by property. *)
Lemma sampled_row (im : Image) (f row : Feature) :
  sample_region im ["rh95"] f = Some row ->
  exists p,
    geometry f = Some p /\
    sys_index row = sys_index f +:+ "_0" /\
    geometry row = None /\
    (forall n b, band im n = Some b -> get row n = b p /\ b p <> None) /\
    (forall n, band im n = None ->
       get row n = if String.eqb n "rh95" then get f "rh95" else None).
Proof.
  unfold sample_region. destruct (geometry f) as [p|]; cbn; [|discriminate].
  destruct (sample_at im p) as [vs|] eqn:Hvs; cbn; [|discriminate].
  intros [= <-]. exists p. split; [reflexivity|]. split; [reflexivity|].
  split; [reflexivity|]. unfold get. cbn.
  pose proof (fun n => sampled_lookup (bands im) p vs n Hvs) as Hlook.
  split.
  - intros n b Hb. unfold band in Hb.
    destruct (find _ (bands im)) as [x|] eqn:Hf; [|discriminate].
    injection Hb as <-.
    assert (Hv : snd x p <> None).
    { apply find_some in Hf as [Hx _].
      apply (proj1 (PairFacts.sample_at_valid im p)); [|exact Hx].
      rewrite Hvs. eexists. reflexivity. }
    specialize (Hlook n). rewrite Hf in Hlook. split; [|exact Hv].
    destruct (snd x p) as [v|] eqn:Hxp; [|contradiction].
    apply lookup_union_Some_l. exact Hlook.
  - intros n Hb. unfold band in Hb. specialize (Hlook n).
    destruct (find _ (bands im)) as [x|]; [discriminate|].
    rewrite lookup_union_r by exact Hlook.
    unfold copy_properties. cbn. unfold get.
    destruct (properties f !! "rh95") as [h|] eqn:Hh; cbn.
    + destruct (String.eqb n "rh95") eqn:Hn.
      * apply String.eqb_eq in Hn. subst n. apply lookup_insert_eq.
      * apply String.eqb_neq in Hn. rewrite lookup_insert_ne by congruence. apply lookup_empty.
    + rewrite lookup_empty. destruct (String.eqb n "rh95"); reflexivity.
Qed.

Lemma same_index_same_sample (l : FeatureCollection) (x y : Feature) :
  List.NoDup (map sys_index l) -> In x l -> In y l -> sys_index x = sys_index y -> x = y.
Proof.
  induction l as [|a l IH]; simpl; [intros _ []|].
  intros Hnd Hx Hy Heq. inversion Hnd as [|? ? Hnotin Hnd']; subst.
  destruct Hx as [<-|Hx], Hy as [<-|Hy].
  - reflexivity.
  - exfalso. apply Hnotin. rewrite Heq. apply in_map, Hy.
  - exfalso. apply Hnotin. rewrite <- Heq. apply in_map, Hx.
  - apply IH; assumption.
Qed.

End TableFacts.

(** X15.  What the forest is trained on.  When the extended raster is
    built, has the eleven input bands and has no band named rh95 or
    random, the training table is computed, and each of its rows comes
    from a Training sample that has a point: the row has that sample's
    index followed by [_0], no geometry, the sample's height as rh95, no
    [random] property, and for each of the eleven inputs the value of
    that band at the sample's pixel. *)
Theorem training_rows_complete
    (divide : Q -> Q -> option Q) (uniform : Z -> string -> Q)
    (image st : Image) (S2samples : FeatureCollection) :
  stacked divide image = Ok st ->
  (forall n, In n inputBands -> In n (bandNames st)) ->
  ~ In "rh95" (bandNames st) ->
  ~ In "random" (bandNames st) ->
  exists rows,
    training divide uniform image S2samples = Ok rows /\
    forall row, In row rows ->
      exists f p h,
        In f (trainingSamples uniform S2samples) /\
        geometry f = Some p /\
        sys_index row = sys_index f +:+ "_0" /\
        geometry row = None /\
        get f "rh95" = Some h /\
        get row "rh95" = Some h /\
        get row "random" = None /\
        forall n, In n inputBands ->
          exists b v, band st n = Some b /\ b p = Some v /\ get row n = Some v.
Proof.
  intros Hst Hin Hno_h Hno_r. unfold training. rewrite Hst. cbn [rbind].
  eexists. split; [reflexivity|]. intros row Hrow. unfold sampleRegions in Hrow.
  apply PairFacts.omap_in in Hrow as (f & Hf & Hrow).
  destruct (TableFacts.sampled_row st f row Hrow) as (p & Hp & Hidx & Hgeo & Hband & Hother).
  assert (Hh : get f "rh95" <> None).
  { destruct (CountFacts.drawn_from uniform S2samples f) as (g & _ & Hg & ->).
    - apply CountFacts.split_in_drawn. left. exact Hf.
    - rewrite SplitFacts.get_set_other by discriminate. exact Hg. }
  destruct (get f "rh95") as [h|] eqn:Hfh; [|contradiction].
  exists f, p, h. split; [exact Hf|]. split; [exact Hp|]. split; [exact Hidx|].
  split; [exact Hgeo|]. split; [exact Hfh|]. split.
  { rewrite (Hother "rh95" (TableFacts.not_a_band st "rh95" Hno_h)). reflexivity. }
  split.
  { rewrite (Hother "random" (TableFacts.not_a_band st "random" Hno_r)). reflexivity. }
  intros n Hn. destruct (TableFacts.is_a_band st n (Hin n Hn)) as [b Hb].
  destruct (Hband n b Hb) as [Hget Hvalid].
  destruct (b p) as [v|] eqn:Hbp; [|contradiction].
  exists b, v. repeat split; assumption.
Qed.

Lemma training_rows_complete_witness :
  exists st,
    stacked ee_divide (composite 0.4 0.1 0.2 0.15) = Ok st /\
    exists rows,
      training ee_divide gen (composite 0.4 0.1 0.2 0.15) four_samples = Ok rows /\
      forall row, In row rows ->
        exists f p h,
          In f (trainingSamples gen four_samples) /\
          geometry f = Some p /\
          sys_index row = sys_index f +:+ "_0" /\
          geometry row = None /\
          get f "rh95" = Some h /\
          get row "rh95" = Some h /\
          get row "random" = None /\
          forall n, In n inputBands ->
            exists b v, band st n = Some b /\ b p = Some v /\ get row n = Some v.
Proof.
  eexists. split; [reflexivity|].
  apply (training_rows_complete ee_divide gen (composite 0.4 0.1 0.2 0.15));
    [reflexivity | | names_apart | names_apart].
  intros n Hn. simpl in Hn. simpl. intuition (subst; auto 20).
Defined.

(** X16.  No sample is on both sides.  When the indices of the sample
    table are distinct, no index is shared by a Training and a Testing
    sample, and no row of the table the forest is trained on has the
    index of a row of the table it is tested on. *)
Theorem no_sample_in_both_tables
    (divide : Q -> Q -> option Q) (uniform : Z -> string -> Q)
    (image : Image) (S2samples rows_train rows_test : FeatureCollection) :
  List.NoDup (map sys_index S2samples) ->
  training divide uniform image S2samples = Ok rows_train ->
  testing divide uniform image S2samples = Ok rows_test ->
  (forall f g, In f (trainingSamples uniform S2samples) ->
               In g (testingSamples uniform S2samples) ->
               sys_index f <> sys_index g) /\
  (forall a b, In a rows_train -> In b rows_test -> sys_index a <> sys_index b).
Proof.
  intros Hnd Htr Hte.
  assert (Hsamples : forall f g, In f (trainingSamples uniform S2samples) ->
                       In g (testingSamples uniform S2samples) ->
                       sys_index f <> sys_index g).
  { intros f g Hf Hg Heq.
    pose proof (CountFacts.split_in_drawn uniform S2samples f (or_introl Hf)) as Hfd.
    pose proof (CountFacts.split_in_drawn uniform S2samples g (or_intror Hg)) as Hgd.
    destruct (CountFacts.drawn_from _ _ _ Hfd) as (f0 & Hf0 & _ & Ef).
    destruct (CountFacts.drawn_from _ _ _ Hgd) as (g0 & Hg0 & _ & Eg).
    assert (E0 : f0 = g0).
    { apply (TableFacts.same_index_same_sample S2samples); try assumption.
      rewrite Ef, Eg in Heq. exact Heq. }
    assert (E : g = f) by (rewrite Ef, Eg, E0; reflexivity).
    rewrite E in Hg.
    unfold trainingSamples, testingSamples, EEFeatureCollection.filter in Hf, Hg.
    apply filter_In in Hf as [_ Hf]. apply filter_In in Hg as [_ Hg].
    change (negb (EEFilter.test (EEFilter.lt "random" 0.7) f) = true) in Hg.
    rewrite Hf in Hg. discriminate. }
  split; [exact Hsamples|].
  intros a b Ha Hb Heq.
  unfold training in Htr. unfold testing in Hte.
  destruct (stacked divide image) as [st|msg]; [|discriminate].
  cbn [rbind] in Htr, Hte. injection Htr as <-. injection Hte as <-.
  unfold sampleRegions in Ha, Hb.
  apply PairFacts.omap_in in Ha as (f & Hf & Ha).
  apply PairFacts.omap_in in Hb as (g & Hg & Hb).
  destruct (TableFacts.sampled_row st f a Ha) as (_ & _ & Hia & _).
  destruct (TableFacts.sampled_row st g b Hb) as (_ & _ & Hib & _).
  rewrite Hia, Hib in Heq. apply TableFacts.append_cancel_r in Heq.
  exact (Hsamples f g Hf Hg Heq).
Qed.

Lemma no_sample_in_both_tables_witness :
  exists rows_train rows_test,
    training ee_divide gen (composite 0.4 0.1 0.2 0.15) four_samples = Ok rows_train /\
    testing ee_divide gen (composite 0.4 0.1 0.2 0.15) four_samples = Ok rows_test /\
    (forall f g, In f (trainingSamples gen four_samples) ->
                 In g (testingSamples gen four_samples) ->
                 sys_index f <> sys_index g) /\
    (forall a b, In a rows_train -> In b rows_test -> sys_index a <> sys_index b).
Proof.
  eexists. eexists. split; [reflexivity|]. split; [reflexivity|].
  apply (no_sample_in_both_tables ee_divide gen (composite 0.4 0.1 0.2 0.15) four_samples);
    [names_apart | reflexivity | reflexivity].
Defined.

(** ** The predicted raster and the evaluation table *)

Module PredictFacts.




End PredictFacts.





(** ** The mean absolute error *)

Module MetricFacts.

Section Sums.

Context {A : Type}.
Variable f : A -> Q.
Hypothesis f_nonneg : forall x, (0 <= f x)%Q.

Lemma sum_nonneg (l : list A) : (0 <= EEList.sum (map f l))%Q.
Proof.
  induction l as [|x l IH]; simpl; [lra|]. pose proof (f_nonneg x). lra.
Qed.

Lemma sum_zero (l : list A) :
  (EEList.sum (map f l) == 0)%Q <-> forall x, In x l -> (f x == 0)%Q.
Proof.
  induction l as [|x l IH]; simpl.
  - split; [intros _ y [] | reflexivity].
  - pose proof (f_nonneg x) as Hx. pose proof (sum_nonneg l) as Hl. split.
    + intros H y [<-|Hy].
      * apply Qle_antisym; [lra | exact Hx].
      * apply IH; [|exact Hy]. apply Qle_antisym; [lra | exact Hl].
    + intros H. rewrite (H x (or_introl Logic.eq_refl)).
      rewrite (proj2 IH) by (intros y Hy; apply H; right; exact Hy). reflexivity.
Qed.

End Sums.

(** The list the evaluator averages, over its pairs. *)
Lemma mae_list (rows : FeatureCollection) :
  mae rows = map (fun pair => Qabs (snd pair - fst pair)) (paired rows).
Proof. reflexivity. Qed.

End MetricFacts.

Module CompareFacts.
Import MetricFacts.

Lemma gap_nonneg (pair : Q * Q) : (0 <= gap pair)%Q.
Proof. apply Qabs_nonneg. Qed.

Lemma gap_zero (pair : Q * Q) : (gap pair == 0)%Q <-> (snd pair == fst pair)%Q.
Proof.
  unfold gap. split.
  - intros H. pose proof (Qle_Qabs (snd pair - fst pair)) as H1.
    pose proof (Qle_Qabs (- (snd pair - fst pair))) as H2.
    rewrite Qabs_opp in H2. lra.
  - intros H. assert (E : (snd pair - fst pair == 0)%Q) by lra.
    rewrite E. reflexivity.
Qed.

(** The MAE, on a table that has at least one pair. *)
Lemma mae_of_pairs (rows : FeatureCollection) (m : Q) :
  maeVal rows = Some m ->
  let L := paired rows in
  let N := inject_Z (Z.of_nat (List.length L)) in
  (0 < N)%Q /\
  m = (EEList.sum (map gap L) / N)%Q.
Proof.
  intros H. cbv zeta. unfold maeVal in H. rewrite mae_list in H.
  change (fun pair : Q * Q => Qabs (snd pair - fst pair)) with gap in H.
  destruct (paired rows) as [|pair L] eqn:HL; [discriminate|].
  unfold EEList.reduce_mean in *. cbn [map] in *. injection H as <-.
  cbn [List.length]. rewrite !length_map. split; [|reflexivity].
  change 0%Q with (inject_Z 0). rewrite <- Zlt_Qlt. simpl. lia.
Qed.

End CompareFacts.

(** X20.  The MAE is zero exactly when every prediction is its
    observation: whenever the evaluator has an MAE, it equals 0 if and
    only if in every pair the evaluator forms the two values are equal. *)
Theorem mae_zero_iff_exact (rows : FeatureCollection) (m : Q) :
  maeVal rows = Some m ->
  ((m == 0)%Q <-> forall pair, In pair (paired rows) -> (snd pair == fst pair)%Q).
Proof.
  intros Hm.
  destruct (CompareFacts.mae_of_pairs rows m Hm) as (HN & ->).
  set (L := paired rows) in *.
  set (N := inject_Z (Z.of_nat (List.length L))) in *.
  pose proof (MetricFacts.sum_zero gap CompareFacts.gap_nonneg L) as Hz.
  split.
  - intros H pair Hp. apply CompareFacts.gap_zero. apply (proj1 Hz); [|exact Hp].
    assert (E : (EEList.sum (map gap L)
                 == EEList.sum (map gap L) / N * N)%Q) by (field; lra).
    rewrite E, H. ring.
  - intros H. assert (E : (EEList.sum (map gap L) == 0)%Q).
    { apply (proj2 Hz). intros pair Hp. apply CompareFacts.gap_zero, H, Hp. }
    rewrite E. field. lra.
Qed.

Lemma mae_zero_iff_exact_witness :
  ((0 # 2 == 0)%Q <->
   forall pair, In pair (paired [row "0_0" 10 10; row "1_0" 20 20]) ->
                (snd pair == fst pair)%Q).
Proof.
  apply (mae_zero_iff_exact [row "0_0" 10 10; row "1_0" 20 20] (0 # 2)).
  reflexivity.
Defined.
